(** * ImageCLEF Aware 2023: the AIcrowd evaluator (dataset/evaluate.py)

    A shallow embedding of [AIcrowdEvaluator] and the properties of its
    validation ([load_predictions]) and scoring ([compute_primary_score]).

    Modelling conventions.
    - A parsed JSON document is a [json] value.  A Python [dict] is an
      association list in insertion order; [json.load] yields dicts whose
      keys are unique, which the theorems state as [unique_keys].
    - Python text is a [string], one [ascii] per character.
    - A Python [float] is a binary64 value, the primitive [float]:
      addition and division round as the hardware does, and [float(z)]
      rounds an int to the nearest binary64, ties to even.
    - [scipy.stats.pearsonr] is library code outside the repository; the
      scoring functions take it as the parameter [pearsonr].
    - A Python exception is a value of [exn]; fallible code returns
      [result A].
    - The [print] calls of the source write progress lines to the standard
      output and have no other effect; they are left out. *)

From Stdlib Require Import List String Ascii ZArith Bool Arith Lia.
From Stdlib Require Import Permutation DecimalString QArith.
From Stdlib Require Import PrimFloat FloatOps SpecFloat.
Import ListNotations.

Close Scope Q_scope.

Set Warnings "-register-all".

Open Scope list_scope.
Open Scope string_scope.

(** ** Python values *)

Inductive json : Type :=
| JNull
| JBool (b : bool)
| JInt (z : Z)
| JFloat (f : float)
| JStr (s : string)
| JList (l : list json)
| JDict (d : list (string * json)).

Definition dict (V : Type) : Type := list (string * V).

Inductive exn_arg : Type :=
| ArgStr (s : string)
| ArgInt (n : nat).

(** [Exception args] is a plain [Exception] raised with the arguments
    [args]; the other constructors
    are the built-in exception classes the evaluator can run into. *)
Inductive exn : Type :=
| Exception (args : list exn_arg)
| KeyError (key : string)
| TypeError
| AttributeError
| ValueError
| IndexError
| OverflowError
| ZeroDivisionError.

Inductive result (A : Type) : Type :=
| Ok (a : A)
| Raise (e : exn).

Arguments Ok {A} a.
Arguments Raise {A} e.

Definition bind {A B : Type} (m : result A) (k : A -> result B) : result B :=
  match m with
  | Ok a => k a
  | Raise e => Raise e
  end.

Notation "x <- m ;; k" := (bind m (fun x => k))
  (at level 61, m at next level, right associativity).
Notation "m ;;; k" := (bind m (fun _ => k))
  (at level 61, right associativity).

Definition is_ok {A : Type} (m : result A) : bool :=
  match m with
  | Ok _ => true
  | Raise _ => false
  end.

Fixpoint mapM {A B : Type} (f : A -> result B) (l : list A) : result (list B) :=
  match l with
  | [] => Ok []
  | a :: l' => b <- f a ;; bs <- mapM f l' ;; Ok (b :: bs)
  end.

(** ** Dictionaries *)

Definition keys {V : Type} (d : dict V) : list string := map fst d.

Fixpoint lookup {V : Type} (d : dict V) (k : string) : option V :=
  match d with
  | [] => None
  | (k', v) :: d' => if String.eqb k k' then Some v else lookup d' k
  end.

(** [d[k]] *)
Definition dict_get {V : Type} (d : dict V) (k : string) : result V :=
  match lookup d k with
  | Some v => Ok v
  | None => Raise (KeyError k)
  end.

(** [d[k] = v]: an existing key keeps its position, a new one goes last. *)
Fixpoint dict_set {V : Type} (d : dict V) (k : string) (v : V) : dict V :=
  match d with
  | [] => [(k, v)]
  | (k', v') :: d' =>
      if String.eqb k k' then (k', v) :: d' else (k', v') :: dict_set d' k v
  end.

(** [k in d] *)
Definition mem (k : string) (l : list string) : bool :=
  existsb (String.eqb k) l.

Fixpoint distinct (l : list string) : bool :=
  match l with
  | [] => true
  | k :: l' => negb (mem k l') && distinct l'
  end.

Definition unique_keys {V : Type} (d : dict V) : bool := distinct (keys d).

(** ** Built-ins applied to parsed JSON *)

(** [type(x).__name__] *)
Definition type_name (x : json) : string :=
  match x with
  | JNull => "NoneType"
  | JBool _ => "bool"
  | JInt _ => "int"
  | JFloat _ => "float"
  | JStr _ => "str"
  | JList _ => "list"
  | JDict _ => "dict"
  end.

(** [len(x)] *)
Definition py_len (x : json) : result nat :=
  match x with
  | JDict d => Ok (List.length d)
  | JList l => Ok (List.length l)
  | JStr s => Ok (String.length s)
  | _ => Raise TypeError
  end.

Fixpoint chars (s : string) : list json :=
  match s with
  | EmptyString => []
  | String c s' => JStr (String c EmptyString) :: chars s'
  end.

(** [for name in x]: the keys of a dict, the items of a list, the characters
    of a str. *)
Definition py_iter (x : json) : result (list json) :=
  match x with
  | JDict d => Ok (map JStr (keys d))
  | JList l => Ok l
  | JStr s => Ok (chars s)
  | _ => Raise TypeError
  end.

(** [x[k]] for a str subscript [k] *)
Definition py_getitem (x : json) (k : string) : result json :=
  match x with
  | JDict d => dict_get d k
  | _ => Raise TypeError
  end.

(** The largest integer magnitude [float] still converts: one below the
    midpoint between the largest binary64 value and 2^1024. *)
Definition float_int_limit : Z := 2 ^ 1024 - 2 ^ 970.

(** The binary64 value nearest to the int [z], ties to even; infinite
    when [z] is beyond the limit. *)
Definition float_of_Z (z : Z) : float :=
  SF2Prim (binary_normalize prec emax z 0 false).

(** [float(x)].  The evaluator applies it to scores that [validate_score]
    accepted: ints and floats.  A str is not parsed here. *)
Definition py_float (x : json) : result float :=
  match x with
  | JInt z =>
      if (Z.abs z <? float_int_limit)%Z then Ok (float_of_Z z)
      else Raise OverflowError
  | JFloat f => Ok f
  | JBool b => Ok (if b then one else zero)
  | JStr _ => Raise ValueError
  | _ => Raise TypeError
  end.

Definition str_of_nat (n : nat) : string :=
  NilEmpty.string_of_uint (Nat.to_uint n).

(** [repr(s)] for a str without quotes, backslashes or control characters *)
Definition repr_plain (s : string) : string := "'" ++ s ++ "'".

(** [str(t)] for a tuple of such strs *)
Definition str_of_tuple (t : list string) : string :=
  "(" ++ String.concat ", " (map repr_plain t) ++ ")".

(** [template.format] applied to [args], for templates made of text and [{}] fields,
    the only ones the evaluator uses; [args] are already converted with
    [str].  Surplus arguments are ignored, as in Python. *)
Fixpoint format (template : string) (args : list string) : result string :=
  match template with
  | EmptyString => Ok EmptyString
  | String c rest =>
      if Ascii.eqb c "{" then
        match rest with
        | String c' rest' =>
            if Ascii.eqb c' "}" then
              match args with
              | [] => Raise IndexError
              | a :: args' => r <- format rest' args' ;; Ok (a ++ r)
              end
            else Raise ValueError
        | EmptyString => Raise ValueError
        end
      else if Ascii.eqb c "}" then Raise ValueError
      else r <- format rest args ;; Ok (String c r)
  end.

(** [str(e)] for an [Exception] and a [KeyError]; the texts that the other
    built-in exceptions carry are not kept. *)
Definition repr_arg (a : exn_arg) : string :=
  match a with
  | ArgStr s => repr_plain s
  | ArgInt n => str_of_nat n
  end.

Definition exn_str (e : exn) : string :=
  match e with
  | Exception [] => ""
  | Exception [ArgStr s] => s
  | Exception [ArgInt n] => str_of_nat n
  | Exception args => "(" ++ String.concat ", " (map repr_arg args) ++ ")"
  | KeyError k => repr_plain k
  | _ => ""
  end.

(** ** The evaluator *)

Definition REQUIRED_SITUATION_CODES : list string :=
  ["acc"; "it"; "bank"; "wait"].

(** The state of an evaluator: [self.gt], the parsed ground-truth file, a
    JSON object from profile identifiers to score records. *)
Record AIcrowdEvaluator : Type := { gt : dict json }.

(** The outcome of [open(path)] followed by [json.load]: the text of the
    exception, or the parsed document. *)
Definition file_system : Type := string -> string + json.

(** The dict [score_validation_args] that [load_predictions] fills in and
    hands to [validate_score]. *)
Record score_validation_args : Type := {
  sva_user_profile : string;
  sva_record_count : nat;
  sva_situation_code : string;
  sva_score : json
}.

Definition raise_exception {A : Type}
    (message : string) (record_count : nat) (args : list string) : result A :=
  m <- format message args ;;
  t <- format " Error occured at record nbr {}." [str_of_nat record_count] ;;
  Raise (Exception [ArgStr (m ++ t)]).

Definition validate_score (a : score_validation_args) : result unit :=
  let score := sva_score a in
  let score_type := sva_situation_code a in
  let user_profile := sva_user_profile a in
  let record_count := sva_record_count a in
  if negb (String.eqb (type_name score) "int")
     && negb (String.eqb (type_name score) "float")
  then raise_exception
         ("Score for situtation code '{}' for user profile '{}' must be " ++
          "a number. In case it is a number make sure that you remove the quotes. ")
         record_count [score_type; user_profile]
  else Ok tt.

(** [compute_secondary_score] *)
Definition compute_secondary_score (predictions : dict json) : float :=
  zero.

Section Validation.

(** [str(x)] for a parsed JSON value that is not a str (None, a bool, a
    number, a list or a dict); it only shapes the text of one message. *)
Variable str_other : json -> string.

Definition py_str (x : json) : string :=
  match x with
  | JStr s => s
  | _ => str_other x
  end.

(** [x in REQUIRED_SITUATION_CODES] *)
Definition is_situation_code (x : json) : bool :=
  match x with
  | JStr s => mem s REQUIRED_SITUATION_CODES
  | _ => false
  end.

(** The loop [for score_name in scores] of [load_predictions]. *)
Fixpoint check_score_names
    (names : list json) (record_count : nat) (user_profile : string)
    : result unit :=
  match names with
  | [] => Ok tt
  | score_name :: rest =>
      (if negb (is_situation_code score_name)
       then raise_exception
              ("Situation code '{}' for user profile '{}' does not exist " ++
               "(Possible situation codes: {}).")
              record_count
              [py_str score_name; user_profile;
               str_of_tuple REQUIRED_SITUATION_CODES]
       else Ok tt) ;;;
      check_score_names rest record_count user_profile
  end.

(** One of the four blocks that set the situation code and the score in
    [score_validation_args] and call [validate_score]. *)
Definition validate_field
    (scores : json) (record_count : nat) (user_profile code : string)
    : result unit :=
  score <- py_getitem scores code ;;
  validate_score {| sva_user_profile := user_profile;
                    sva_record_count := record_count;
                    sva_situation_code := code;
                    sva_score := score |}.

(** [float(scores[code])] *)
Definition float_field (scores : json) (code : string) : result json :=
  v <- py_getitem scores code ;;
  f <- py_float v ;;
  Ok (JFloat f).

(** The dict literal stored under [predictions[user_profile]]: the four
    scores coerced with [float]. *)
Definition float_record (scores : json) : result json :=
  acc <- float_field scores "acc" ;;
  it <- float_field scores "it" ;;
  bank <- float_field scores "bank" ;;
  wait <- float_field scores "wait" ;;
  Ok (JDict [("acc", acc); ("it", it); ("bank", bank); ("wait", wait)]).

(** The body of the loop [for user_profile in user_data_items], after the
    record counter has been incremented; it yields the record stored under
    [predictions[user_profile]]. *)
Definition record_body
    (self : AIcrowdEvaluator) (user_data_items : dict json)
    (record_count : nat) (user_profile : string) : result json :=
  let allowed_user_profiles := keys (gt self) in
  (if negb (mem user_profile allowed_user_profiles)
   then raise_exception "User profile '{}' does not exist in gt set."
          record_count [user_profile]
   else Ok tt) ;;;
  scores <- dict_get user_data_items user_profile ;;
  n <- py_len scores ;;
  (if negb (Nat.eqb n 4)
   then raise_exception
          ("User profile '{}' must contain exactly 4 key/value pairs where " ++
           "key=situation_code and value=score (Required situation codes: {}).")
          record_count
          [user_profile; str_of_tuple REQUIRED_SITUATION_CODES]
   else Ok tt) ;;;
  names <- py_iter scores ;;
  check_score_names names record_count user_profile ;;;
  validate_field scores record_count user_profile "acc" ;;;
  validate_field scores record_count user_profile "it" ;;;
  validate_field scores record_count user_profile "bank" ;;;
  validate_field scores record_count user_profile "wait" ;;;
  float_record scores.

Fixpoint load_loop
    (self : AIcrowdEvaluator) (user_data_items : dict json)
    (profiles : list string) (record_count : nat) (predictions : dict json)
    : result (dict json) :=
  match profiles with
  | [] => Ok predictions
  | user_profile :: rest =>
      let record_count := S record_count in
      record <- record_body self user_data_items record_count user_profile ;;
      load_loop self user_data_items rest record_count
        (dict_set predictions user_profile record)
  end.

Definition count_mismatch_message : string :=
  "Number of user profiles in submission file not equal to number of user_profiles " ++
  "in gt set.".

(** [load_predictions] from the point where the submission file has been
    parsed into [user_data_items]. *)
Definition load_predictions_parsed
    (self : AIcrowdEvaluator) (user_data_items : json) : result (dict json) :=
  match user_data_items with
  | JDict items =>
      let allowed_user_profiles := keys (gt self) in
      if negb (Nat.eqb (List.length (keys items)) (List.length allowed_user_profiles))
      then Raise (Exception [ArgStr count_mismatch_message;
                             ArgInt (List.length (keys items))])
      else load_loop self items (keys items) 0 []
  | _ => Raise AttributeError
  end.

Definition load_predictions
    (self : AIcrowdEvaluator) (fs : file_system) (submission_file_path : string)
    : result (dict json) :=
  match fs submission_file_path with
  | inl e =>
      Raise (Exception
               [ArgStr ("Error loading submission file. Please make sure your file is formatted as valid JSON. " ++
                        "Error: " ++ e)])
  | inr user_data_items => load_predictions_parsed self user_data_items
  end.

End Validation.

(** ** Float arithmetic used by the scoring *)

(** [a + b] on floats *)
Definition fl_add (a b : float) : float := (a + b)%float.

(** [a / n] for a float [a] and an int [n] that is a length: the int is
    converted to a float and the division is that of floats; Python raises
    when the divisor is zero. *)
Definition fl_div_nat (a : float) (n : nat) : result float :=
  match n with
  | O => Raise ZeroDivisionError
  | S _ => Ok (a / float_of_Z (Z.of_nat n))%float
  end.

(** ** Scoring *)

(** The set literal [{"acc", "it", "bank", "wait"}].  The order in which
    Python iterates over a set of strs is not fixed;
    [compute_primary_score] therefore takes the set as the list
    [situations] of its elements in iteration order, a permutation of
    [situation_set]. *)
Definition situation_set : list string := ["acc"; "it"; "bank"; "wait"].

(** The loop [for user in self.gt] that fills [gt_list] and
    [predictions_list]. *)
Fixpoint build_lists
    (self : AIcrowdEvaluator) (predictions : dict json) (sit : string)
    (users : list string) (gt_list predictions_list : list json)
    : result (list json * list json) :=
  match users with
  | [] => Ok (gt_list, predictions_list)
  | user :: rest =>
      g <- (record <- dict_get (gt self) user ;; py_getitem record sit) ;;
      p <- (record <- dict_get predictions user ;; py_getitem record sit) ;;
      build_lists self predictions sit rest
        (gt_list ++ [g])%list (predictions_list ++ [p])%list
  end.

Section Scoring.

(** [pearsonr(x, y)[0]]: the coefficient, first component of the pair that
    [scipy.stats.pearsonr] returns for the two Python lists (the p-value is
    not used), or the exception it raises.  The function belongs to the
    library, not to the repository, and is a parameter here. *)
Variable pearsonr : list json -> list json -> result float.

(** The loop [for sit in situations]. *)
Fixpoint sum_correlations
    (self : AIcrowdEvaluator) (predictions : dict json)
    (sits : list string) (sum_correlation : float) : result float :=
  match sits with
  | [] => Ok sum_correlation
  | sit :: rest =>
      lists <- build_lists self predictions sit (keys (gt self)) [] [] ;;
      sit_correlation <- pearsonr (fst lists) (snd lists) ;;
      sum_correlations self predictions rest
        (fl_add sum_correlation sit_correlation)
  end.

Definition compute_primary_score
    (self : AIcrowdEvaluator) (situations : list string)
    (predictions : dict json) : result float :=
  sum_correlation <- sum_correlations self predictions situations zero ;;
  fl_div_nat sum_correlation (List.length situations).

End Scoring.

(** What a call of [_evaluate] leaves behind: the returned [_result_object]
    or the exception, and the dict bound to [_context] as it is after the
    call. *)
Record evaluation : Type := {
  returned : result (dict float);
  context_after : dict json
}.

Definition _evaluate
    (str_other : json -> string)
    (pearsonr : list json -> list json -> result float)
    (self : AIcrowdEvaluator) (fs : file_system) (situations : list string)
    (client_payload : dict string) (_context : dict json) : evaluation :=
  {| returned :=
       submission_file_path <- dict_get client_payload "submission_file_path" ;;
       predictions <- load_predictions str_other self fs submission_file_path ;;
       score_pearson_correlation_coefficient <-
         compute_primary_score pearsonr self situations predictions ;;
       let score_secondary := compute_secondary_score predictions in
       Ok [("score", score_pearson_correlation_coefficient);
           ("score_secondary", score_secondary)];
     context_after := _context |}.

(** [_evaluate(client_payload)]: the parameter [_context] is bound to the
    default dict, which is created once and shared by all such calls;
    [default_context] is its current content. *)
Definition _evaluate_default
    (str_other : json -> string)
    (pearsonr : list json -> list json -> result float)
    (self : AIcrowdEvaluator) (fs : file_system) (situations : list string)
    (client_payload : dict string) (default_context : dict json) : evaluation :=
  _evaluate str_other pearsonr self fs situations client_payload
    default_context.

(** ** A reference for the library's coefficient *)

(** The exact value of a finite float. *)
Definition exact (f : float) : option Q :=
  match Prim2SF f with
  | S754_zero _ => Some 0%Q
  | S754_finite s m e =>
      Some (inject_Z (cond_Zopp s (Zpos m)) * Qpower 2 e)%Q
  | _ => None
  end.

Fixpoint exact_pairs (l : list (float * float)) : option (list (Q * Q)) :=
  match l with
  | [] => Some []
  | (x, y) :: l' =>
      match exact x, exact y, exact_pairs l' with
      | Some a, Some b, Some r => Some ((a, b) :: r)
      | _, _, _ => None
      end
  end.

Definition Qsum (l : list Q) : Q := fold_right Qplus 0%Q l.

Definition Q_to_float (q : Q) : float :=
  (float_of_Z (Qnum q) / float_of_Z (Zpos (Qden q)))%float.

(** Modelled from the spec: for vectors [x], [y] given as the list of their
    pairs, r = sum (xi - mean x)(yi - mean y) /
    sqrt (sum (xi - mean x)^2 * sum (yi - mean y)^2), not-a-number when the
    denominator is zero.  The sums are accumulated exactly; the square root
    and the quotient are those of floats. *)
Definition reference_formula (xy : list (Q * Q)) : float :=
  let n := inject_Z (Z.of_nat (List.length xy)) in
  let xbar := (Qsum (map fst xy) / n)%Q in
  let ybar := (Qsum (map snd xy) / n)%Q in
  let num := Qsum (map (fun p => (fst p - xbar) * (snd p - ybar))%Q xy) in
  let sxx := Qsum (map (fun p => (fst p - xbar) * (fst p - xbar))%Q xy) in
  let syy := Qsum (map (fun p => (snd p - ybar) * (snd p - ybar))%Q xy) in
  if Qeq_bool (sxx * syy) 0 then nan
  else (Q_to_float (Qred num) / sqrt (Q_to_float (Qred (sxx * syy))))%float.

(** Modelled from the spec: a stand-in for [scipy.stats.pearsonr] with which
    the parameter [pearsonr] is instantiated in the examples.  As the
    library does, it raises for lists of different lengths or of fewer than
    two entries; an entry that is not finite makes the coefficient
    not-a-number. *)
Definition pearson_reference (x y : list json) : result float :=
  if negb (Nat.eqb (List.length x) (List.length y)) then Raise ValueError
  else if Nat.ltb (List.length x) 2 then Raise ValueError
  else
    xs <- mapM py_float x ;;
    ys <- mapM py_float y ;;
    match exact_pairs (combine xs ys) with
    | Some xy => Ok (reference_formula xy)
    | None => Ok nan
    end.

(** ** Vocabulary of the statements *)

(** The sentence [raise_exception] appends to every message. *)
Definition record_suffix (record_count : nat) : string :=
  " Error occured at record nbr " ++ str_of_nat record_count ++ ".".

Definition codes_text : string := "('acc', 'it', 'bank', 'wait')".

Definition unknown_profile_message (profile : string) : string :=
  "User profile '" ++ profile ++ "' does not exist in gt set.".

Definition field_count_message (profile : string) : string :=
  "User profile '" ++ profile ++
  "' must contain exactly 4 key/value pairs where key=situation_code and value=score (Required situation codes: " ++
  codes_text ++ ").".

Definition unknown_code_message (name profile : string) : string :=
  "Situation code '" ++ name ++ "' for user profile '" ++ profile ++
  "' does not exist (Possible situation codes: " ++ codes_text ++ ").".

Definition type_error_message (code profile : string) : string :=
  "Score for situtation code '" ++ code ++ "' for user profile '" ++ profile ++
  "' must be a number. In case it is a number make sure that you remove the quotes. ".

(** [t] occurs in [s]. *)
Definition includes (t s : string) : Prop :=
  exists before after, s = before ++ t ++ after.

(** The value has type int or float. *)
Definition is_number (x : json) : bool :=
  match x with
  | JInt _ | JFloat _ => true
  | _ => false
  end.

(** A JSON number proper: an int that converts to float, or a finite
    float. *)
Definition is_json_number (x : json) : bool :=
  match x with
  | JInt z => (Z.abs z <? float_int_limit)%Z
  | JFloat f => is_finite f
  | _ => false
  end.

(** The schema of a ground-truth record: a JSON object with exactly the
    four situation codes as keys, each holding a JSON number. *)
Definition score_record (record : json) : bool :=
  match record with
  | JDict d =>
      Nat.eqb (List.length d) 4 && unique_keys d
      && forallb (fun k => mem k REQUIRED_SITUATION_CODES) (keys d)
      && forallb (fun kv => is_json_number (snd kv)) d
  | _ => false
  end.

Definition gt_schema (g : dict json) : bool :=
  forallb (fun kv => score_record (snd kv)) g.

(** [d[profile][code]], null where it does not exist. *)
Definition entry (d : dict json) (code profile : string) : json :=
  match lookup d profile with
  | Some (JDict record) =>
      match lookup record code with
      | Some v => v
      | None => JNull
      end
  | _ => JNull
  end.

(** [float(v)] for a number [v], not-a-number for anything else. *)
Definition float_of (v : json) : float :=
  match v with
  | JInt z => float_of_Z z
  | JFloat f => f
  | _ => nan
  end.

(** [float(d[profile][code])] *)
Definition score_at (d : dict json) (code profile : string) : float :=
  float_of (entry d code profile).

(** The vector of one situation code over the profiles, in their order:
    the list of [d[profile][code]]. *)
Definition column
    (d : dict json) (code : string) (profiles : list string) : list json :=
  map (entry d code) profiles.

(** The primary score as the spec words it: for each situation code, in the
    order in which the set is iterated, the coefficient between the vector
    of [groundTruth[profile][code]] and the vector of
    [predictions[profile][code]], both over the ground truth's profile
    identifiers in its iteration order; the four coefficients are summed and
    the sum is divided by 4. *)
Definition spec_primary_score
    (pearsonr : list json -> list json -> result float)
    (self : AIcrowdEvaluator) (predictions : dict json)
    (situations : list string) : result float :=
  rs <- mapM (fun code =>
                pearsonr (column (gt self) code (keys (gt self)))
                         (column predictions code (keys (gt self))))
             situations ;;
  Ok (fold_left fl_add rs zero / 4)%float.

(** The coefficient does not depend on the order in which the pairs of two
    vectors of numbers are listed. *)
Definition reorder_invariant
    (pearsonr : list json -> list json -> result float) : Prop :=
  forall x y x' y',
    List.length x = List.length y ->
    List.length x' = List.length y' ->
    forallb is_number x = true ->
    forallb is_number y = true ->
    Permutation (combine x y) (combine x' y') ->
    pearsonr x y = pearsonr x' y'.

(** An exception of a built-in class, as opposed to a rejection that the
    evaluator raises itself. *)
Definition builtin (e : exn) : Prop := forall args, e <> Exception args.

(** Every profile of [users] has in [d] a record whose four scores convert
    to floats. *)
Definition float_scores (d : dict json) (users : list string) : Prop :=
  forall u sit, In u users -> In sit REQUIRED_SITUATION_CODES ->
    exists record v,
      lookup d u = Some (JDict record) /\ lookup record sit = Some v
      /\ py_float v = Ok (score_at d sit u).

(** The first required code, in the order acc, it, bank, wait, whose value
    in [scores] is not a number. *)
Definition first_non_number (scores : dict json) : option string :=
  find (fun code =>
          match lookup scores code with
          | Some v => negb (is_number v)
          | None => false
          end)
       REQUIRED_SITUATION_CODES.

(** *** The claims that do not hold as worded *)

(** Every rejection names a record of the submission by its 1-based
    index. *)
Definition every_rejection_names_a_record
    (str_other : json -> string) (self : AIcrowdEvaluator)
    (items : dict json) : Prop :=
  forall args,
    load_predictions_parsed str_other self (JDict items) = Raise (Exception args) ->
    exists i, 1 <= i <= List.length items
              /\ includes (str_of_nat i) (exn_str (Exception args)).


(** A submission with as many profiles as the ground truth and a profile
    the ground truth does not have is rejected as unknown profile. *)
Definition unknown_profile_always_reported
    (str_other : json -> string) (self : AIcrowdEvaluator)
    (items : dict json) : Prop :=
  List.length (keys items) = List.length (keys (gt self)) ->
  (exists p, In p (keys items) /\ ~ In p (keys (gt self))) ->
  exists p n,
    load_predictions_parsed str_other self (JDict items) =
    Raise (Exception [ArgStr (unknown_profile_message p ++ record_suffix n)]).

(** A submission with a record in which a required field is not a number is
    rejected with the type error. *)
Definition non_number_always_type_error
    (str_other : json -> string) (self : AIcrowdEvaluator)
    (items : dict json) : Prop :=
  (exists p scores code v,
      lookup items p = Some (JDict scores)
      /\ In code REQUIRED_SITUATION_CODES
      /\ lookup scores code = Some v /\ is_number v = false) ->
  exists code p n,
    load_predictions_parsed str_other self (JDict items) =
    Raise (Exception [ArgStr (type_error_message code p ++ record_suffix n)]).

(** A record with the four situation codes in the order acc, it, bank,
    wait. *)
Definition scores4 (a b c d : json) : json :=
  JDict [("acc", a); ("it", b); ("bank", c); ("wait", d)].

(** *** What validation accepts *)

(** A score that [validate_score] accepts and [float] converts: an int
    within the float range, or any float. *)
Definition convertible (v : json) : bool :=
  match v with
  | JInt z => (Z.abs z <? float_int_limit)%Z
  | JFloat _ => true
  | _ => false
  end.

(** A record that passes the loop body: an object of four fields, every
    field name a situation code, every situation code a convertible
    score. *)
Definition acceptable_record (record : json) : bool :=
  match record with
  | JDict d =>
      Nat.eqb (List.length d) 4
      && forallb (fun k => mem k REQUIRED_SITUATION_CODES) (keys d)
      && forallb (fun code =>
                    match lookup d code with
                    | Some v => convertible v
                    | None => false
                    end)
                 REQUIRED_SITUATION_CODES
  | _ => false
  end.

(** A parsed submission that passes [load_predictions]: an object with as
    many profiles as the ground truth [g], every profile one of [g] and
    every record acceptable. *)
Definition acceptable (g : dict json) (submission : json) : bool :=
  match submission with
  | JDict items =>
      Nat.eqb (List.length (keys items)) (List.length (keys g))
      && forallb (fun u =>
                    mem u (keys g)
                    && match lookup items u with
                       | Some record => acceptable_record record
                       | None => false
                       end)
                 (keys items)
  | _ => false
  end.

(** The records that are objects have unique keys, as [json.load] builds
    them. *)
Definition records_unique (items : dict json) : bool :=
  forallb (fun kv =>
             match snd kv with
             | JDict d => unique_keys d
             | _ => true
             end)
          items.

(** The violation that makes the loop body reject record number [i] with
    profile [p], and the exception it raises: the checks come in the order
    profile, field count, field names, scores, and each message names what
    was checked. *)
Inductive violation (str_other : json -> string) (self : AIcrowdEvaluator)
    (items : dict json) (i : nat) (p : string) : exn -> Prop :=
| violation_unknown_profile :
    mem p (keys (gt self)) = false ->
    violation str_other self items i p
      (Exception [ArgStr (unknown_profile_message p ++ record_suffix i)])
| violation_field_count (scores : json) (n : nat) :
    mem p (keys (gt self)) = true ->
    lookup items p = Some scores ->
    py_len scores = Ok n ->
    n <> 4 ->
    violation str_other self items i p
      (Exception [ArgStr (field_count_message p ++ record_suffix i)])
| violation_unknown_code (scores : json) (good : list json) (x : json)
    (rest : list json) :
    mem p (keys (gt self)) = true ->
    lookup items p = Some scores ->
    py_len scores = Ok 4 ->
    py_iter scores = Ok (good ++ x :: rest)%list ->
    forallb is_situation_code good = true ->
    is_situation_code x = false ->
    violation str_other self items i p
      (Exception [ArgStr (unknown_code_message (py_str str_other x) p
                          ++ record_suffix i)])
| violation_type (scores : json) (names : list json)
    (earlier : list string) (code : string) (later : list string) (v : json) :
    mem p (keys (gt self)) = true ->
    lookup items p = Some scores ->
    py_len scores = Ok 4 ->
    py_iter scores = Ok names ->
    forallb is_situation_code names = true ->
    REQUIRED_SITUATION_CODES = (earlier ++ code :: later)%list ->
    (forall c, In c earlier ->
               exists w, py_getitem scores c = Ok w /\ is_number w = true) ->
    py_getitem scores code = Ok v ->
    is_number v = false ->
    violation str_other self items i p
      (Exception [ArgStr (type_error_message code p ++ record_suffix i)]).

(** The record of [profile] in [items] with its four scores as floats, in
    the order acc, it, bank, wait. *)
Definition coerced (items : dict json) (profile : string) : json :=
  scores4 (JFloat (score_at items "acc" profile))
          (JFloat (score_at items "it" profile))
          (JFloat (score_at items "bank" profile))
          (JFloat (score_at items "wait" profile)).

(** *** Sample data *)

Definition no_str : json -> string := fun _ => "".

(** The ground truth of the spec's example. *)
Definition sample_gt : dict json :=
  [("u1", scores4 (JInt 10) (JInt 20) (JInt 30) (JInt 40));
   ("u2", scores4 (JInt 20) (JInt 10) (JInt 10) (JInt 20))].

(** The same profiles in the other order. *)
Definition sample_gt_swapped : dict json :=
  [("u2", scores4 (JInt 20) (JInt 10) (JInt 10) (JInt 20));
   ("u1", scores4 (JInt 10) (JInt 20) (JInt 30) (JInt 40))].

Definition sample_self : AIcrowdEvaluator := {| gt := sample_gt |}.

Definition sample_self_swapped : AIcrowdEvaluator :=
  {| gt := sample_gt_swapped |}.

(** [u2] is missing and the unknown [u3] is there instead. *)
Definition sample_unknown : dict json :=
  [("u1", scores4 (JInt 10) (JInt 20) (JInt 30) (JInt 40));
   ("u3", scores4 (JInt 20) (JInt 10) (JInt 10) (JInt 20))].

(** A string-encoded number in the second record. *)
Definition sample_quoted : dict json :=
  [("u1", scores4 (JInt 10) (JInt 20) (JInt 30) (JInt 40));
   ("u2", scores4 (JInt 20) (JStr "22.4") (JInt 10) (JInt 20))].

(** A string-encoded number in the first record and an unknown profile in
    the second. *)
Definition sample_quoted_then_unknown : dict json :=
  [("u1", scores4 (JStr "22.4") (JInt 20) (JInt 30) (JInt 40));
   ("u3", scores4 (JInt 20) (JInt 10) (JInt 10) (JInt 20))].

(** A string-encoded number in a record of five fields. *)
Definition sample_quoted_five : dict json :=
  [("u1", JDict [("acc", JStr "22.4"); ("it", JInt 20); ("bank", JInt 30);
                 ("wait", JInt 40); ("extra", JInt 1)]);
   ("u2", scores4 (JInt 20) (JInt 10) (JInt 10) (JInt 20))].

(** A record that is a JSON array of the four codes, not an object. *)
Definition sample_array_record : dict json :=
  [("u1", JList [JStr "acc"; JStr "it"; JStr "bank"; JStr "wait"]);
   ("u2", scores4 (JInt 20) (JInt 10) (JInt 10) (JInt 20))].



Definition floats4 (a b c d : float) : json :=
  scores4 (JFloat a) (JFloat b) (JFloat c) (JFloat d).

(** What [load_predictions] returns for a copy of [sample_gt]. *)
Definition sample_predictions : dict json :=
  [("u1", floats4 10 20 30 40); ("u2", floats4 20 10 10 20)].

Definition sample_predictions_swapped : dict json :=
  [("u2", floats4 20 10 10 20); ("u1", floats4 10 20 30 40)].


Definition sample_payload : dict string :=
  [("submission_file_path", "my prediction file.json")].

Definition sample_fs : file_system :=
  fun path =>
    if String.eqb path "my prediction file.json" then inr (JDict sample_gt)
    else inl "No such file or directory".

(** A record of three fields in the second place. *)
Definition sample_three_fields : dict json :=
  [("u1", scores4 (JInt 10) (JInt 20) (JInt 30) (JInt 40));
   ("u2", JDict [("acc", JInt 20); ("it", JInt 10); ("bank", JInt 10)])].

(** A field name that is no situation code in the second record. *)
Definition sample_bad_code : dict json :=
  [("u1", scores4 (JInt 10) (JInt 20) (JInt 30) (JInt 40));
   ("u2", JDict [("acc", JInt 20); ("it", JInt 10); ("loan", JInt 10);
                 ("wait", JInt 20)])].

(** An int score beyond the float range in the second record. *)
Definition sample_huge : dict json :=
  [("u1", scores4 (JInt 10) (JInt 20) (JInt 30) (JInt 40));
   ("u2", scores4 (JInt 20) (JInt 10) (JInt (2 ^ 1024)) (JInt 20))].

(** An int score that is no binary64 value in the first record. *)
Definition sample_wide : dict json :=
  [("u1", scores4 (JInt 9007199254740993) (JInt 20) (JInt 30) (JInt 40));
   ("u2", scores4 (JFloat 0.5) (JInt 10) (JInt 10) (JInt 20))].

Definition sample_wide_predictions : dict json :=
  [("u1", floats4 9007199254740992 20 30 40);
   ("u2", floats4 0.5 10 10 20)].

(** Predictions that lack the profile [u2]. *)
Definition sample_partial_predictions : dict json :=
  [("u1", floats4 10 20 30 40)].

(** * Properties *)

(** ** The error monad and dictionaries *)

Lemma bind_ok_inv {A B : Type} (m : result A) (k : A -> result B) (b : B) :
  bind m k = Ok b -> exists a, m = Ok a /\ k a = Ok b.
Proof.
  destruct m as [a|e]; simpl; intros H; [eauto | discriminate].
Qed.

Lemma bind_raise_inv {A B : Type} (m : result A) (k : A -> result B) (e : exn) :
  bind m k = Raise e -> m = Raise e \/ exists a, m = Ok a /\ k a = Raise e.
Proof.
  destruct m as [a|e']; simpl; intros H; [right; eauto | left; congruence].
Qed.

Lemma mem_In (k : string) (l : list string) : mem k l = true <-> In k l.
Proof.
  unfold mem. rewrite existsb_exists. split.
  - intros (x & Hx & He). apply String.eqb_eq in He. now subst.
  - intros H. exists k. split; [exact H | apply String.eqb_refl].
Qed.

Lemma mem_false (k : string) (l : list string) : mem k l = false <-> ~ In k l.
Proof.
  rewrite <- mem_In. destruct (mem k l); split; intros H.
  - discriminate.
  - now elim H.
  - intros H'; discriminate.
  - reflexivity.
Qed.

Lemma distinct_NoDup (l : list string) : distinct l = true <-> NoDup l.
Proof.
  induction l as [|k l IH]; simpl.
  - split; [constructor | reflexivity].
  - rewrite andb_true_iff, negb_true_iff, mem_false, IH. split.
    + intros [H1 H2]. now constructor.
    + intros H. inversion H; subst. now split.
Qed.

Lemma lookup_In {V : Type} (d : dict V) (k : string) :
  In k (keys d) <-> exists v, lookup d k = Some v.
Proof.
  induction d as [|[k' v'] d IH]; simpl.
  - split; [easy | intros [v H]; discriminate].
  - destruct (String.eqb_spec k k') as [->|Hne].
    + split; [eauto | auto].
    + rewrite <- IH. split; [intros [H|H]; [congruence | exact H] | auto].
Qed.

Lemma dict_get_ok {V : Type} (d : dict V) (k : string) (v : V) :
  dict_get d k = Ok v <-> lookup d k = Some v.
Proof.
  unfold dict_get. destruct (lookup d k); split; congruence.
Qed.

(** ** Messages *)

Lemma raise_exception_not_ok {A : Type} (m : string) (n : nat)
    (args : list string) (a : A) :
  raise_exception m n args <> Ok a.
Proof.
  unfold raise_exception.
  destruct (format m args); simpl; [|discriminate].
  destruct (format " Error occured at record nbr {}." [str_of_nat n]);
    simpl; discriminate.
Qed.

Lemma raise_unknown_profile {A : Type} (n : nat) (p : string) :
  @raise_exception A "User profile '{}' does not exist in gt set." n [p] =
  Raise (Exception [ArgStr (unknown_profile_message p ++ record_suffix n)]).
Proof. reflexivity. Qed.

Lemma raise_field_count {A : Type} (n : nat) (p : string) :
  @raise_exception A
    ("User profile '{}' must contain exactly 4 key/value pairs where " ++
     "key=situation_code and value=score (Required situation codes: {}).")
    n [p; str_of_tuple REQUIRED_SITUATION_CODES] =
  Raise (Exception [ArgStr (field_count_message p ++ record_suffix n)]).
Proof. reflexivity. Qed.

Lemma raise_unknown_code {A : Type} (n : nat) (name p : string) :
  @raise_exception A
    ("Situation code '{}' for user profile '{}' does not exist " ++
     "(Possible situation codes: {}).")
    n [name; p; str_of_tuple REQUIRED_SITUATION_CODES] =
  Raise (Exception [ArgStr (unknown_code_message name p ++ record_suffix n)]).
Proof. reflexivity. Qed.

Lemma raise_type_error {A : Type} (n : nat) (code p : string) :
  @raise_exception A
    ("Score for situtation code '{}' for user profile '{}' must be " ++
     "a number. In case it is a number make sure that you remove the quotes. ")
    n [code; p] =
  Raise (Exception [ArgStr (type_error_message code p ++ record_suffix n)]).
Proof. reflexivity. Qed.

Lemma validate_score_eq (p code : string) (n : nat) (v : json) :
  validate_score {| sva_user_profile := p; sva_record_count := n;
                    sva_situation_code := code; sva_score := v |} =
  if is_number v then Ok tt
  else Raise (Exception [ArgStr (type_error_message code p ++ record_suffix n)]).
Proof.
  unfold validate_score. cbn [sva_user_profile sva_record_count
                              sva_situation_code sva_score].
  rewrite raise_type_error. destruct v; reflexivity.
Qed.

Section ValidationFacts.

Variable str_other : json -> string.

Lemma validate_field_eq (scores : json) (n : nat) (p code : string) :
  validate_field scores n p code =
  match py_getitem scores code with
  | Ok v =>
      if is_number v then Ok tt
      else Raise (Exception [ArgStr (type_error_message code p ++ record_suffix n)])
  | Raise e => Raise e
  end.
Proof.
  unfold validate_field. destruct (py_getitem scores code) as [v|e]; simpl.
  - apply validate_score_eq.
  - reflexivity.
Qed.

Lemma check_score_names_ok (names : list json) (n : nat) (p : string) :
  check_score_names str_other names n p = Ok tt <->
  forallb is_situation_code names = true.
Proof.
  induction names as [|x names IH]; cbn [check_score_names forallb].
  - tauto.
  - rewrite raise_unknown_code.
    destruct (is_situation_code x); cbn [negb bind andb].
    + exact IH.
    + split; discriminate.
Qed.

Lemma check_score_names_raise (names : list json) (n : nat) (p : string) (e : exn) :
  check_score_names str_other names n p = Raise e ->
  exists x, In x names /\ is_situation_code x = false
            /\ e = Exception [ArgStr (unknown_code_message (py_str str_other x) p
                                       ++ record_suffix n)].
Proof.
  induction names as [|x names IH]; cbn [check_score_names].
  - discriminate.
  - rewrite raise_unknown_code.
    destruct (is_situation_code x) eqn:Hx; cbn [negb bind].
    + intros H. destruct (IH H) as (y & Hy & Hc & He).
      exists y. repeat split; [right|..]; assumption.
    + intros H. injection H as <-.
      exists x. repeat split; [left; reflexivity | assumption].
Qed.

(** When the loop body accepts a record, and what it stores: the record
    counter plays no part. *)
Lemma record_body_ok_iff (self : AIcrowdEvaluator) (items : dict json)
    (n : nat) (p : string) (r : json) :
  record_body str_other self items n p = Ok r <->
  mem p (keys (gt self)) = true
  /\ exists scores,
       lookup items p = Some scores
       /\ py_len scores = Ok 4
       /\ (exists names, py_iter scores = Ok names
                         /\ forallb is_situation_code names = true)
       /\ (forall code, In code REQUIRED_SITUATION_CODES ->
                        exists v, py_getitem scores code = Ok v
                                  /\ is_number v = true)
       /\ float_record scores = Ok r.
Proof.
  unfold record_body. split.
  - intros H.
    apply bind_ok_inv in H as (u0 & H0 & H).
    destruct (mem p (keys (gt self))) eqn:Hmem; cbn [negb] in H0;
      [|now apply raise_exception_not_ok in H0].
    apply bind_ok_inv in H as (scores & Hs & H). apply dict_get_ok in Hs.
    apply bind_ok_inv in H as (len & Hlen & H).
    apply bind_ok_inv in H as (u1 & H1 & H).
    destruct (Nat.eqb len 4) eqn:Hfour; cbn [negb] in H1;
      [|now apply raise_exception_not_ok in H1].
    apply Nat.eqb_eq in Hfour; subst len.
    apply bind_ok_inv in H as (names & Hnames & H).
    apply bind_ok_inv in H as ([] & Hcheck & H).
    apply check_score_names_ok in Hcheck.
    apply bind_ok_inv in H as (ua & Ha & H).
    apply bind_ok_inv in H as (ui & Hi & H).
    apply bind_ok_inv in H as (ub & Hb & H).
    apply bind_ok_inv in H as (uw & Hw & H).
    rewrite validate_field_eq in Ha, Hi, Hb, Hw.
    split; [reflexivity|]. exists scores.
    repeat split; try assumption.
    + exists names. now split.
    + intros code Hcode. simpl in Hcode.
      destruct Hcode as [<-|[<-|[<-|[<-|[]]]]].
      * destruct (py_getitem scores "acc") as [v|]; [|discriminate].
        exists v. destruct (is_number v); [now split | discriminate].
      * destruct (py_getitem scores "it") as [v|]; [|discriminate].
        exists v. destruct (is_number v); [now split | discriminate].
      * destruct (py_getitem scores "bank") as [v|]; [|discriminate].
        exists v. destruct (is_number v); [now split | discriminate].
      * destruct (py_getitem scores "wait") as [v|]; [|discriminate].
        exists v. destruct (is_number v); [now split | discriminate].
  - intros (Hmem & scores & Hs & Hlen & (names & Hnames & Hcheck) & Hnum & Hr).
    rewrite Hmem. cbn [negb bind].
    apply dict_get_ok in Hs. rewrite Hs. cbn [bind].
    rewrite Hlen. cbn [bind Nat.eqb negb].
    rewrite Hnames. cbn [bind].
    apply (check_score_names_ok names n p) in Hcheck. rewrite Hcheck.
    cbn [bind]. rewrite !validate_field_eq.
    destruct (Hnum "acc") as (va & -> & ->); [simpl; tauto|].
    destruct (Hnum "it") as (vi & -> & ->); [simpl; tauto|].
    destruct (Hnum "bank") as (vb & -> & ->); [simpl; tauto|].
    destruct (Hnum "wait") as (vw & -> & ->); [simpl; tauto|].
    cbn [bind]. exact Hr.
Qed.

Lemma dict_get_raise {V : Type} (d : dict V) (k : string) (e : exn) :
  dict_get d k = Raise e -> builtin e.
Proof.
  unfold dict_get. destruct (lookup d k); intros H; [discriminate|].
  injection H as <-. intros args; discriminate.
Qed.

Lemma py_len_raise (x : json) (e : exn) : py_len x = Raise e -> builtin e.
Proof.
  destruct x; simpl; intros H; try discriminate;
    injection H as <-; intros args; discriminate.
Qed.

Lemma py_iter_raise (x : json) (e : exn) : py_iter x = Raise e -> builtin e.
Proof.
  destruct x; simpl; intros H; try discriminate;
    injection H as <-; intros args; discriminate.
Qed.

Lemma py_getitem_raise (x : json) (k : string) (e : exn) :
  py_getitem x k = Raise e -> builtin e.
Proof.
  destruct x; simpl; intros H; try (now apply dict_get_raise in H);
    injection H as <-; intros args; discriminate.
Qed.

Lemma py_float_raise (x : json) (e : exn) : py_float x = Raise e -> builtin e.
Proof.
  destruct x; simpl; intros H; try discriminate;
    try (injection H as <-; intros args; discriminate).
  destruct (Z.abs z <? float_int_limit)%Z; [discriminate|].
  injection H as <-; intros args; discriminate.
Qed.

Lemma float_field_raise (scores : json) (code : string) (e : exn) :
  float_field scores code = Raise e -> builtin e.
Proof.
  unfold float_field. intros H.
  apply bind_raise_inv in H as [H|(v & _ & H)];
    [now apply py_getitem_raise in H|].
  apply bind_raise_inv in H as [H|(f & _ & H)];
    [now apply py_float_raise in H | discriminate].
Qed.

Lemma float_record_raise (scores : json) (e : exn) :
  float_record scores = Raise e -> builtin e.
Proof.
  unfold float_record. intros H.
  repeat (apply bind_raise_inv in H as [H|(? & _ & H)];
          [now apply float_field_raise in H|]).
  discriminate.
Qed.

(** *** The loop over the records *)

Lemma keys_dict_set {V : Type} (d : dict V) (k : string) (v : V) :
  ~ In k (keys d) -> keys (dict_set d k v) = (keys d ++ [k])%list.
Proof.
  induction d as [|[k' v'] d IH]; simpl; intros Hk.
  - reflexivity.
  - destruct (String.eqb_spec k k') as [->|Hne].
    + elim Hk. now left.
    + simpl. rewrite IH; [reflexivity | tauto].
Qed.

Lemma lookup_dict_set {V : Type} (d : dict V) (k k' : string) (v : V) :
  lookup (dict_set d k v) k' = if String.eqb k' k then Some v else lookup d k'.
Proof.
  induction d as [|[k0 v0] d IH]; simpl.
  - reflexivity.
  - destruct (String.eqb_spec k k0) as [->|Hne]; simpl.
    + destruct (String.eqb k' k0); reflexivity.
    + rewrite IH. destruct (String.eqb_spec k' k0) as [->|Hne'].
      * destruct (String.eqb_spec k0 k); [congruence | reflexivity].
      * reflexivity.
Qed.

Lemma load_loop_app (self : AIcrowdEvaluator) (items : dict json)
    (pre rest : list string) (n : nat) (acc : dict json) :
  load_loop str_other self items (pre ++ rest)%list n acc =
  (acc' <- load_loop str_other self items pre n acc ;;
   load_loop str_other self items rest (n + List.length pre) acc').
Proof.
  revert n acc. induction pre as [|p pre IH]; intros n acc; simpl.
  - now rewrite Nat.add_0_r.
  - destruct (record_body str_other self items (S n) p) as [r|e]; simpl.
    + rewrite IH. now rewrite Nat.add_succ_r.
    + reflexivity.
Qed.

Lemma load_loop_keys (self : AIcrowdEvaluator) (items : dict json)
    (ks : list string) (n : nat) (acc preds : dict json) :
  load_loop str_other self items ks n acc = Ok preds ->
  NoDup (keys acc ++ ks)%list ->
  keys preds = (keys acc ++ ks)%list.
Proof.
  revert n acc. induction ks as [|k ks IH]; intros n acc; simpl.
  - intros H _. injection H as <-. now rewrite app_nil_r.
  - intros H Hnd. apply bind_ok_inv in H as (r & _ & H).
    assert (Hk : ~ In k (keys acc)).
    { apply NoDup_remove_2 in Hnd. intros Hin. apply Hnd.
      apply in_or_app. now left. }
    apply IH in H.
    + rewrite H, keys_dict_set by exact Hk. now rewrite <- app_assoc.
    + rewrite keys_dict_set by exact Hk. now rewrite <- app_assoc.
Qed.

Lemma load_loop_lookup (self : AIcrowdEvaluator) (items : dict json)
    (ks : list string) (n : nat) (acc preds : dict json) :
  load_loop str_other self items ks n acc = Ok preds ->
  NoDup ks ->
  forall k,
    (In k ks -> exists i r, record_body str_other self items i k = Ok r
                            /\ lookup preds k = Some r)
    /\ (~ In k ks -> lookup preds k = lookup acc k).
Proof.
  revert n acc. induction ks as [|k0 ks IH]; intros n acc; simpl.
  - intros H _ k. injection H as <-. split; [easy | reflexivity].
  - intros H Hnd k. inversion Hnd as [|? ? Hk0 Hnd']; subst.
    apply bind_ok_inv in H as (r & Hr & H).
    destruct (IH _ _ H Hnd' k) as [Hin Hout]. split.
    + intros [<-|Hk]; [|now apply Hin].
      exists (S n), r. split; [exact Hr|].
      rewrite (proj2 (IH _ _ H Hnd' k0) Hk0), lookup_dict_set.
      now rewrite String.eqb_refl.
    + intros Hk. rewrite Hout by tauto. rewrite lookup_dict_set.
      destruct (String.eqb_spec k k0) as [->|Hne]; [tauto | reflexivity].
Qed.

Lemma load_loop_total (self : AIcrowdEvaluator) (items : dict json)
    (ks : list string) (n : nat) (acc : dict json) :
  (forall k, In k ks -> exists r, record_body str_other self items 0 k = Ok r) ->
  exists preds, load_loop str_other self items ks n acc = Ok preds.
Proof.
  revert n acc. induction ks as [|k ks IH]; intros n acc Hall; simpl.
  - eauto.
  - destruct (Hall k) as (r & Hr); [now left|].
    apply record_body_ok_iff in Hr.
    apply (record_body_ok_iff self items (S n) k r) in Hr.
    rewrite Hr. cbn [bind]. apply IH. intros k' Hk'. apply Hall. now right.
Qed.

Lemma load_loop_raise (self : AIcrowdEvaluator) (items : dict json)
    (ks : list string) (n : nat) (acc : dict json) (e : exn) :
  load_loop str_other self items ks n acc = Raise e ->
  exists pre p post,
    ks = (pre ++ p :: post)%list
    /\ record_body str_other self items (S (n + List.length pre)) p = Raise e.
Proof.
  revert n acc. induction ks as [|k ks IH]; intros n acc; simpl.
  - discriminate.
  - intros H. apply bind_raise_inv in H as [H|(r & _ & H)].
    + exists [], k, ks. split; [reflexivity|]. simpl.
      now rewrite Nat.add_0_r.
    + apply IH in H as (pre & p & post & -> & H).
      exists (k :: pre), p, post. split; [reflexivity|].
      simpl. now rewrite Nat.add_succ_r.
Qed.

End ValidationFacts.

(** ** Validation: [load_predictions] *)

Lemma append_assoc (a b c : string) : (a ++ b) ++ c = a ++ (b ++ c).
Proof. induction a as [|x a IH]; simpl; [reflexivity | now rewrite IH]. Qed.

(** A record that passed the field-count and the situation-code checks has
    the four required codes among its keys. *)
Lemma four_codes_present (scores : dict json) :
  unique_keys scores = true ->
  List.length scores = 4 ->
  forallb (fun k => mem k REQUIRED_SITUATION_CODES) (keys scores) = true ->
  forall code, In code REQUIRED_SITUATION_CODES ->
               exists v, lookup scores code = Some v.
Proof.
  intros Hu Hlen Hall code Hcode.
  apply lookup_In. revert code Hcode.
  apply (NoDup_length_incl (l := keys scores)).
  - now apply distinct_NoDup.
  - unfold keys. rewrite length_map, Hlen. simpl. lia.
  - intros k Hk. rewrite forallb_forall in Hall.
    apply mem_In. now apply Hall.
Qed.

Lemma names_of_dict (scores : dict json) :
  forallb is_situation_code (map JStr (keys scores)) =
  forallb (fun k => mem k REQUIRED_SITUATION_CODES) (keys scores).
Proof.
  induction (keys scores) as [|k ks IH]; simpl; [reflexivity | now rewrite IH].
Qed.

(** C9: a record (a JSON object, so with unique keys) that passes the
    field-count check and the situation-code check has all of acc, it, bank
    and wait among its keys: the lookups [scores[code]] succeed, and
    neither they nor the float coercions raise a missing-key error. *)
Theorem required_codes_present
    (str_other : json -> string) (scores : dict json) (n : nat) (p : string) :
  unique_keys scores = true ->
  py_len (JDict scores) = Ok 4 ->
  check_score_names str_other (map JStr (keys scores)) n p = Ok tt ->
  forall code, In code REQUIRED_SITUATION_CODES ->
    (exists v, py_getitem (JDict scores) code = Ok v)
    /\ (forall k, float_field (JDict scores) code <> Raise (KeyError k)).
Proof.
  intros Hu Hlen Hcheck code Hcode.
  apply check_score_names_ok in Hcheck. rewrite names_of_dict in Hcheck.
  simpl in Hlen. injection Hlen as Hlen.
  destruct (four_codes_present scores Hu Hlen Hcheck code Hcode) as (v & Hv).
  apply dict_get_ok in Hv. split.
  - exists v. exact Hv.
  - intros k. unfold float_field. cbn [py_getitem]. rewrite Hv. cbn [bind].
    destruct (py_float v) as [f|e] eqn:Hf; cbn [bind]; [discriminate|].
    destruct v; simpl in Hf; try discriminate;
      try (injection Hf as <-; discriminate).
    destruct (Z.abs z <? float_int_limit)%Z; [discriminate|].
    injection Hf as <-; discriminate.
Qed.

Lemma required_codes_present_witness :
  exists v, py_getitem (scores4 (JInt 10) (JInt 20) (JInt 30) (JInt 40)) "bank"
            = Ok v.
Proof.
  apply (required_codes_present no_str
           [("acc", JInt 10); ("it", JInt 20); ("bank", JInt 30); ("wait", JInt 40)]
           1 "u1"); try reflexivity.
  simpl. tauto.
Defined.

(** A record that is an array of the four codes also passes both checks;
    it has no keys, and the lookup fails with a type error, not with a
    missing key. *)
Example array_record_type_error :
  load_predictions_parsed no_str sample_self (JDict sample_array_record) =
  Raise TypeError.
Proof. reflexivity. Qed.

(** C5: a parsed submission mapping whose number of profiles differs from
    the ground truth's is rejected with the count-mismatch error, whatever
    its records hold: the check comes before the loop over the records. *)
Theorem count_mismatch_rejected
    (str_other : json -> string) (self : AIcrowdEvaluator) (items : dict json) :
  List.length (keys items) <> List.length (keys (gt self)) ->
  load_predictions_parsed str_other self (JDict items) =
  Raise (Exception [ArgStr count_mismatch_message;
                    ArgInt (List.length (keys items))]).
Proof.
  intros Hne. unfold load_predictions_parsed.
  destruct (Nat.eqb_spec (List.length (keys items))
                         (List.length (keys (gt self)))) as [He|_].
  - contradiction.
  - reflexivity.
Qed.

Lemma count_mismatch_rejected_witness :
  load_predictions_parsed no_str sample_self (JDict (tl sample_gt)) =
  Raise (Exception [ArgStr count_mismatch_message; ArgInt 1]).
Proof.
  apply (count_mismatch_rejected no_str sample_self (tl sample_gt)).
  simpl. lia.
Defined.

Lemma load_parsed_loop (str_other : json -> string) (self : AIcrowdEvaluator)
    (items : dict json) :
  List.length (keys items) = List.length (keys (gt self)) ->
  load_predictions_parsed str_other self (JDict items) =
  load_loop str_other self items (keys items) 0 [].
Proof.
  intros He. unfold load_predictions_parsed. rewrite He, Nat.eqb_refl.
  reflexivity.
Qed.

Lemma load_at_first_failure (str_other : json -> string)
    (self : AIcrowdEvaluator) (items : dict json)
    (pre : list string) (p : string) (post : list string) (e : exn) :
  keys items = (pre ++ p :: post)%list ->
  List.length (keys items) = List.length (keys (gt self)) ->
  is_ok (load_loop str_other self items pre 0 []) = true ->
  record_body str_other self items (S (List.length pre)) p = Raise e ->
  load_predictions_parsed str_other self (JDict items) = Raise e.
Proof.
  intros Hk Hlen Hpre Hp. rewrite load_parsed_loop by exact Hlen.
  rewrite Hk, load_loop_app.
  destruct (load_loop str_other self items pre 0 []) as [acc|]; [|discriminate].
  cbn [bind load_loop Nat.add]. rewrite Hp. reflexivity.
Qed.

(** C6, as the code has it: when the count check passes and the records
    before the first profile that the ground truth does not have are all
    accepted, the submission is rejected as unknown profile, at that
    profile and its 1-based index. *)
Theorem first_unknown_profile_rejected
    (str_other : json -> string) (self : AIcrowdEvaluator) (items : dict json)
    (pre : list string) (p : string) (post : list string) :
  keys items = (pre ++ p :: post)%list ->
  List.length (keys items) = List.length (keys (gt self)) ->
  is_ok (load_loop str_other self items pre 0 []) = true ->
  mem p (keys (gt self)) = false ->
  load_predictions_parsed str_other self (JDict items) =
  Raise (Exception [ArgStr (unknown_profile_message p
                            ++ record_suffix (S (List.length pre)))]).
Proof.
  intros Hk Hlen Hpre Hp.
  apply (load_at_first_failure str_other self items pre p post); try assumption.
  unfold record_body. rewrite Hp, raise_unknown_profile. reflexivity.
Qed.

Lemma first_unknown_profile_rejected_witness :
  load_predictions_parsed no_str sample_self (JDict sample_unknown) =
  Raise (Exception [ArgStr (unknown_profile_message "u3" ++ record_suffix 2)]).
Proof.
  apply (first_unknown_profile_rejected no_str sample_self sample_unknown
           ["u1"] "u3" []); reflexivity.
Defined.

(** C6 as worded fails: a type error in an earlier record is reported
    though a later profile is unknown. *)
Lemma unknown_profile_not_always_reported :
  load_predictions_parsed no_str sample_self (JDict sample_quoted_then_unknown) =
  Raise (Exception [ArgStr (type_error_message "acc" "u1" ++ record_suffix 1)])
  /\ ~ unknown_profile_always_reported no_str sample_self
        sample_quoted_then_unknown.
Proof.
  assert (E : load_predictions_parsed no_str sample_self
                (JDict sample_quoted_then_unknown) =
              Raise (Exception [ArgStr (type_error_message "acc" "u1"
                                        ++ record_suffix 1)]))
    by reflexivity.
  split; [exact E|]. intros H.
  destruct H as (p & n & H).
  - reflexivity.
  - exists "u3". split; [simpl; tauto|].
    simpl. intros [H|[H|[]]]; discriminate.
  - rewrite E in H. discriminate.
Qed.

(** C7, as the code has it: when the count check passes, the earlier
    records are accepted, and a record of a known profile has exactly four
    fields, all of them situation codes, then a field that is not an int or
    a float is rejected with the type error, which names the first such
    field in the order acc, it, bank, wait, the profile and the record's
    1-based index. *)
Theorem first_non_number_rejected
    (str_other : json -> string) (self : AIcrowdEvaluator) (items : dict json)
    (pre : list string) (p : string) (post : list string)
    (scores : dict json) (code : string) :
  keys items = (pre ++ p :: post)%list ->
  List.length (keys items) = List.length (keys (gt self)) ->
  is_ok (load_loop str_other self items pre 0 []) = true ->
  mem p (keys (gt self)) = true ->
  lookup items p = Some (JDict scores) ->
  List.length scores = 4 ->
  unique_keys scores = true ->
  forallb (fun k => mem k REQUIRED_SITUATION_CODES) (keys scores) = true ->
  first_non_number scores = Some code ->
  load_predictions_parsed str_other self (JDict items) =
  Raise (Exception [ArgStr (type_error_message code p
                            ++ record_suffix (S (List.length pre)))]).
Proof.
  intros Hk Hcount Hpre Hmem Hlk Hlen Hu Hcodes Hfirst.
  apply (load_at_first_failure str_other self items pre p post); try assumption.
  destruct (four_codes_present scores Hu Hlen Hcodes "acc") as (va & Ha);
    [simpl; tauto|].
  destruct (four_codes_present scores Hu Hlen Hcodes "it") as (vi & Hi);
    [simpl; tauto|].
  destruct (four_codes_present scores Hu Hlen Hcodes "bank") as (vb & Hb);
    [simpl; tauto|].
  destruct (four_codes_present scores Hu Hlen Hcodes "wait") as (vw & Hw);
    [simpl; tauto|].
  unfold first_non_number in Hfirst.
  cbn [find REQUIRED_SITUATION_CODES] in Hfirst.
  rewrite Ha, Hi, Hb, Hw in Hfirst.
  unfold record_body. rewrite Hmem. cbn [negb bind].
  rewrite (proj2 (dict_get_ok items p (JDict scores)) Hlk).
  cbn [bind py_len]. rewrite Hlen. cbn [Nat.eqb negb bind py_iter].
  rewrite (proj2 (check_score_names_ok str_other (map JStr (keys scores))
                    (S (List.length pre)) p))
    by (rewrite names_of_dict; exact Hcodes).
  cbn [bind]. rewrite !validate_field_eq. cbn [py_getitem].
  rewrite (proj2 (dict_get_ok scores "acc" va) Ha),
          (proj2 (dict_get_ok scores "it" vi) Hi),
          (proj2 (dict_get_ok scores "bank" vb) Hb),
          (proj2 (dict_get_ok scores "wait" vw) Hw).
  destruct (is_number va); cbn [negb] in Hfirst;
    [|injection Hfirst as <-; reflexivity].
  destruct (is_number vi); cbn [negb] in Hfirst;
    [|injection Hfirst as <-; reflexivity].
  destruct (is_number vb); cbn [negb] in Hfirst;
    [|injection Hfirst as <-; reflexivity].
  destruct (is_number vw); cbn [negb] in Hfirst;
    [discriminate|injection Hfirst as <-; reflexivity].
Qed.

Lemma first_non_number_rejected_witness :
  load_predictions_parsed no_str sample_self (JDict sample_quoted) =
  Raise (Exception [ArgStr (type_error_message "it" "u2" ++ record_suffix 2)]).
Proof.
  apply (first_non_number_rejected no_str sample_self sample_quoted
           ["u1"] "u2" []
           [("acc", JInt 20); ("it", JStr "22.4"); ("bank", JInt 10);
            ("wait", JInt 20)] "it"); reflexivity.
Defined.

(** C7 as worded fails: a record of five fields is rejected for its field
    count, though its acc score is a string. *)
Lemma non_number_not_always_type_error :
  load_predictions_parsed no_str sample_self (JDict sample_quoted_five) =
  Raise (Exception [ArgStr (field_count_message "u1" ++ record_suffix 1)])
  /\ ~ non_number_always_type_error no_str sample_self sample_quoted_five.
Proof.
  assert (E : load_predictions_parsed no_str sample_self
                (JDict sample_quoted_five) =
              Raise (Exception [ArgStr (field_count_message "u1"
                                        ++ record_suffix 1)]))
    by reflexivity.
  split; [exact E|]. intros H.
  destruct H as (code & p & n & H).
  - exists "u1", [("acc", JStr "22.4"); ("it", JInt 20); ("bank", JInt 30);
                  ("wait", JInt 40); ("extra", JInt 1)], "acc", (JStr "22.4").
    repeat split; simpl; tauto.
  - rewrite E in H. discriminate.
Qed.

Lemma includes_left (t s a : string) : includes t s -> includes t (a ++ s).
Proof.
  intros (x & y & ->). exists (a ++ x), y. now rewrite append_assoc.
Qed.

Lemma includes_right (t s b : string) : includes t s -> includes t (s ++ b).
Proof.
  intros (x & y & ->). exists x, (y ++ b). now rewrite !append_assoc.
Qed.

Lemma includes_head (t b : string) : includes t (t ++ b).
Proof. exists "", b. reflexivity. Qed.

Lemma record_suffix_includes (n : nat) : includes (str_of_nat n) (record_suffix n).
Proof. apply includes_left, includes_head. Qed.

Lemma load_loop_fails_first (str_other : json -> string)
    (self : AIcrowdEvaluator) (items : dict json)
    (ks : list string) (n : nat) (acc : dict json) (e : exn) :
  load_loop str_other self items ks n acc = Raise e ->
  exists pre p post,
    ks = (pre ++ p :: post)%list
    /\ is_ok (load_loop str_other self items pre n acc) = true
    /\ record_body str_other self items (S (n + List.length pre)) p = Raise e.
Proof.
  revert n acc. induction ks as [|k ks IH]; intros n acc; cbn [load_loop].
  - discriminate.
  - intros H. apply bind_raise_inv in H as [H|(r & Hr & H)].
    + exists [], k, ks. repeat split. simpl. now rewrite Nat.add_0_r.
    + apply IH in H as (pre & p & post & -> & Hpre & H).
      exists (k :: pre), p, post. split; [reflexivity|]. split.
      * cbn [load_loop]. rewrite Hr. exact Hpre.
      * simpl. now rewrite Nat.add_succ_r.
Qed.

Lemma check_score_names_raise_first (str_other : json -> string)
    (names : list json) (n : nat) (p : string) (e : exn) :
  check_score_names str_other names n p = Raise e ->
  exists good x rest,
    names = (good ++ x :: rest)%list
    /\ forallb is_situation_code good = true
    /\ is_situation_code x = false
    /\ e = Exception [ArgStr (unknown_code_message (py_str str_other x) p
                              ++ record_suffix n)].
Proof.
  induction names as [|x names IH]; cbn [check_score_names].
  - discriminate.
  - rewrite raise_unknown_code.
    destruct (is_situation_code x) eqn:Hx; cbn [negb bind].
    + intros H. destruct (IH H) as (good & y & rest & -> & Hg & Hy & He).
      exists (x :: good), y, rest. cbn [forallb]. rewrite Hx.
      now repeat split.
    + intros H. injection H as <-. exists [], x, names. now repeat split.
Qed.

(** A rejection of the loop body comes with the violation that caused it. *)
Lemma record_body_violation (str_other : json -> string)
    (self : AIcrowdEvaluator) (items : dict json) (i : nat) (p : string)
    (args : list exn_arg) :
  record_body str_other self items i p = Raise (Exception args) ->
  violation str_other self items i p (Exception args).
Proof.
  unfold record_body. intros H.
  destruct (mem p (keys (gt self))) eqn:Hmem; cbn [negb bind] in H.
  2:{ rewrite raise_unknown_profile in H. cbn [bind] in H.
      injection H as <-. now constructor. }
  unfold dict_get in H.
  destruct (lookup items p) as [scores|] eqn:Hs; cbn [bind] in H;
    [|discriminate].
  destruct (py_len scores) as [len|e0] eqn:Hlen; cbn [bind] in H.
  2:{ injection H as ->. now elim (py_len_raise _ _ Hlen args). }
  destruct (Nat.eqb_spec len 4) as [->|Hne]; cbn [negb bind] in H.
  2:{ rewrite raise_field_count in H. cbn [bind] in H. injection H as <-.
      now apply (violation_field_count _ _ _ _ _ scores len). }
  destruct (py_iter scores) as [names|e0] eqn:Hit; cbn [bind] in H.
  2:{ injection H as ->. now elim (py_iter_raise _ _ Hit args). }
  destruct (check_score_names str_other names i p) as [[]|e0] eqn:Hcheck;
    cbn [bind] in H.
  2:{ injection H as ->.
      apply check_score_names_raise_first in Hcheck
        as (good & x & rest & -> & Hg & Hx & He).
      rewrite He.
      now apply (violation_unknown_code _ _ _ _ _ scores good x rest). }
  apply check_score_names_ok in Hcheck.
  rewrite !validate_field_eq in H.
  destruct (py_getitem scores "acc") as [va|e0] eqn:Ha; cbn [bind] in H.
  2:{ injection H as ->. now elim (py_getitem_raise _ _ _ Ha args). }
  destruct (is_number va) eqn:Na; cbn [bind] in H.
  2:{ injection H as <-.
      apply (violation_type _ _ _ _ _ scores names [] "acc"
               ["it"; "bank"; "wait"] va); try assumption; try reflexivity.
      intros c []. }
  destruct (py_getitem scores "it") as [vi|e0] eqn:Hi; cbn [bind] in H.
  2:{ injection H as ->. now elim (py_getitem_raise _ _ _ Hi args). }
  destruct (is_number vi) eqn:Ni; cbn [bind] in H.
  2:{ injection H as <-.
      apply (violation_type _ _ _ _ _ scores names ["acc"] "it"
               ["bank"; "wait"] vi); try assumption; try reflexivity.
      intros c [<-|[]]. eauto. }
  destruct (py_getitem scores "bank") as [vb|e0] eqn:Hb; cbn [bind] in H.
  2:{ injection H as ->. now elim (py_getitem_raise _ _ _ Hb args). }
  destruct (is_number vb) eqn:Nb; cbn [bind] in H.
  2:{ injection H as <-.
      apply (violation_type _ _ _ _ _ scores names ["acc"; "it"] "bank"
               ["wait"] vb); try assumption; try reflexivity.
      intros c [<-|[<-|[]]]; eauto. }
  destruct (py_getitem scores "wait") as [vw|e0] eqn:Hw; cbn [bind] in H.
  2:{ injection H as ->. now elim (py_getitem_raise _ _ _ Hw args). }
  destruct (is_number vw) eqn:Nw; cbn [bind] in H.
  2:{ injection H as <-.
      apply (violation_type _ _ _ _ _ scores names ["acc"; "it"; "bank"]
               "wait" [] vw); try assumption; try reflexivity.
      intros c [<-|[<-|[<-|[]]]]; eauto. }
  now elim (float_record_raise _ _ H args).
Qed.

Lemma violation_includes (str_other : json -> string)
    (self : AIcrowdEvaluator) (items : dict json) (i : nat) (p : string)
    (e : exn) :
  violation str_other self items i p e ->
  includes (str_of_nat i) (exn_str e) /\ includes p (exn_str e).
Proof.
  intros []; cbn [exn_str];
    (split; [apply includes_left, record_suffix_includes|]);
    apply includes_right.
  - apply includes_left, includes_head.
  - apply includes_left, includes_head.
  - unfold unknown_code_message. do 3 apply includes_left. apply includes_head.
  - unfold type_error_message. do 3 apply includes_left. apply includes_head.
Qed.

(** C3, as the code has it: a rejection raised by [load_predictions] is
    either the count-mismatch rejection, which carries the number of
    submitted profiles and no record index, or a rejection raised through
    [raise_exception] for the first record that fails a check: the records
    before it were accepted, its 1-based index [i] is one more than their
    number and its profile is [p].  The message is the one of the check
    that failed ([violation]): the unknown profile [p]; the field count;
    the first field name, in the record's iteration order, that is no
    situation code; or the first of acc, it, bank, wait whose score is not
    a number.  It includes [i] and [p], and the two messages about a
    situation code or a score include that code. *)
Theorem rejection_message
    (str_other : json -> string) (self : AIcrowdEvaluator) (items : dict json)
    (args : list exn_arg) :
  load_predictions_parsed str_other self (JDict items) = Raise (Exception args) ->
  (List.length (keys items) <> List.length (keys (gt self))
   /\ args = [ArgStr count_mismatch_message; ArgInt (List.length (keys items))])
  \/ (exists pre p post,
        keys items = (pre ++ p :: post)%list
        /\ is_ok (load_loop str_other self items pre 0 []) = true
        /\ violation str_other self items (S (List.length pre)) p
             (Exception args)
        /\ includes (str_of_nat (S (List.length pre)))
             (exn_str (Exception args))
        /\ includes p (exn_str (Exception args))).
Proof.
  unfold load_predictions_parsed.
  destruct (Nat.eqb_spec (List.length (keys items))
                         (List.length (keys (gt self)))) as [He|Hne];
    cbn [negb]; intros H.
  - right. apply load_loop_fails_first in H as (pre & q & post & Hk & Hpre & H).
    cbn [Nat.add] in H. apply record_body_violation in H.
    exists pre, q, post. repeat split; try assumption.
    + now apply violation_includes in H.
    + now apply violation_includes in H.
  - left. injection H as <-. now split.
Qed.

Lemma rejection_message_witness :
  (2 <> 2 /\ [ArgStr (type_error_message "it" "u2" ++ record_suffix 2)] =
             [ArgStr count_mismatch_message; ArgInt 2])
  \/ (exists pre p post,
        keys sample_quoted = (pre ++ p :: post)%list
        /\ is_ok (load_loop no_str sample_self sample_quoted pre 0 []) = true
        /\ violation no_str sample_self sample_quoted (S (List.length pre)) p
             (Exception [ArgStr (type_error_message "it" "u2"
                                 ++ record_suffix 2)])
        /\ includes (str_of_nat (S (List.length pre)))
             (type_error_message "it" "u2" ++ record_suffix 2)
        /\ includes p (type_error_message "it" "u2" ++ record_suffix 2)).
Proof.
  apply (rejection_message no_str sample_self sample_quoted
           [ArgStr (type_error_message "it" "u2" ++ record_suffix 2)]).
  reflexivity.
Defined.

(** C3 as worded fails for the count-mismatch rejection: an empty
    submission is rejected, it has no record, and the exception carries the
    count 0. *)
Lemma count_mismatch_names_no_record :
  load_predictions_parsed no_str sample_self (JDict []) =
  Raise (Exception [ArgStr count_mismatch_message; ArgInt 0])
  /\ ~ every_rejection_names_a_record no_str sample_self [].
Proof.
  split; [reflexivity|]. intros H.
  destruct (H [ArgStr count_mismatch_message; ArgInt 0] eq_refl)
    as (i & [H1 H2] & _).
  simpl in H2. lia.
Qed.

(** C2: when [load_predictions] returns a predictions mapping for a
    submission mapping, the keys of the predictions are those of the ground
    truth, the same identifiers and as many. *)
Theorem validated_keys_are_ground_truth_keys
    (str_other : json -> string) (self : AIcrowdEvaluator) (fs : file_system)
    (path : string) (items predictions : dict json) :
  fs path = inr (JDict items) ->
  unique_keys items = true ->
  load_predictions str_other self fs path = Ok predictions ->
  (forall k, In k (keys predictions) <-> In k (keys (gt self)))
  /\ List.length (keys predictions) = List.length (keys (gt self)).
Proof.
  intros Hfs Hu H. unfold load_predictions in H. rewrite Hfs in H.
  unfold load_predictions_parsed in H.
  destruct (Nat.eqb_spec (List.length (keys items))
                         (List.length (keys (gt self)))) as [He|Hne];
    cbn [negb] in H; [|discriminate].
  apply distinct_NoDup in Hu.
  pose proof (load_loop_keys str_other self items _ _ _ _ H Hu) as Hkeys.
  cbn [keys map app] in Hkeys. fold (keys predictions) in Hkeys.
  assert (Hincl : incl (keys items) (keys (gt self))).
  { intros k Hk.
    destruct (proj1 (load_loop_lookup str_other self items _ _ _ _ H Hu k) Hk)
      as (i & r & Hr & _).
    apply record_body_ok_iff in Hr. apply mem_In. tauto. }
  rewrite Hkeys. split; [|exact He].
  intros k. split; [apply Hincl|].
  apply (NoDup_length_incl Hu); [lia | exact Hincl].
Qed.

(** ** Scoring: [compute_primary_score] *)

Lemma float_scores_entry (d : dict json) (users : list string) (u sit : string) :
  float_scores d users -> In u users -> In sit REQUIRED_SITUATION_CODES ->
  (record <- dict_get d u ;; py_getitem record sit) = Ok (entry d sit u)
  /\ py_float (entry d sit u) = Ok (score_at d sit u).
Proof.
  intros H Hu Hs. destruct (H u sit Hu Hs) as (record & v & Hr & Hv & Hf).
  assert (E : entry d sit u = v) by (unfold entry; now rewrite Hr, Hv).
  rewrite E. split; [|exact Hf].
  rewrite (proj2 (dict_get_ok d u _) Hr). cbn [bind py_getitem].
  now apply dict_get_ok.
Qed.

Lemma float_scores_incl (d : dict json) (users users' : list string) :
  float_scores d users -> incl users' users -> float_scores d users'.
Proof. intros H Hi u sit Hu. apply H. now apply Hi. Qed.

Lemma mapM_app {A B : Type} (f : A -> result B) (l : list A) (a : A)
    (bs : list B) (b : B) :
  mapM f l = Ok bs -> f a = Ok b -> mapM f (l ++ [a])%list = Ok (bs ++ [b])%list.
Proof.
  revert bs. induction l as [|x l IH]; simpl; intros bs Hl Ha.
  - injection Hl as <-. now rewrite Ha.
  - destruct (f x) as [y|]; [|discriminate]. cbn [bind] in *.
    destruct (mapM f l) as [ys|]; [|discriminate]. cbn [bind] in *.
    injection Hl as <-. now rewrite (IH ys eq_refl Ha).
Qed.

Lemma mapM_length {A B : Type} (f : A -> result B) (l : list A) (bs : list B) :
  mapM f l = Ok bs -> List.length bs = List.length l.
Proof.
  revert bs. induction l as [|x l IH]; simpl; intros bs H.
  - now injection H as <-.
  - destruct (f x) as [y|]; [|discriminate]. cbn [bind] in *.
    destruct (mapM f l) as [ys|]; [|discriminate]. cbn [bind] in *.
    injection H as <-. simpl. now rewrite (IH ys eq_refl).
Qed.

(** The two lists that the inner loop builds are the two columns. *)
Lemma build_lists_ok (self : AIcrowdEvaluator) (predictions : dict json)
    (sit : string) (users : list string) :
  float_scores (gt self) users -> float_scores predictions users ->
  In sit REQUIRED_SITUATION_CODES ->
  forall gl pl,
    build_lists self predictions sit users gl pl =
    Ok ((gl ++ column (gt self) sit users)%list,
        (pl ++ column predictions sit users)%list).
Proof.
  intros Hg Hp Hs. induction users as [|u users IH]; intros gl pl.
  - cbn [build_lists column map]. now rewrite !app_nil_r.
  - destruct (float_scores_entry _ _ u sit Hg) as (Eg & _);
      [now left | exact Hs |].
    destruct (float_scores_entry _ _ u sit Hp) as (Eq & _);
      [now left | exact Hs |].
    cbn [build_lists]. rewrite Eg, Eq. cbn [bind].
    rewrite IH.
    + unfold column. cbn [map]. now rewrite <- !app_assoc.
    + exact (float_scores_incl _ _ _ Hg (incl_tl u (incl_refl users))).
    + exact (float_scores_incl _ _ _ Hp (incl_tl u (incl_refl users))).
Qed.

Section ScoringFacts.

Variable pearsonr : list json -> list json -> result float.

Lemma sum_correlations_ok (self : AIcrowdEvaluator) (predictions : dict json)
    (sits : list string) :
  float_scores (gt self) (keys (gt self)) ->
  float_scores predictions (keys (gt self)) ->
  incl sits REQUIRED_SITUATION_CODES ->
  forall a,
    sum_correlations pearsonr self predictions sits a =
    (rs <- mapM (fun code =>
                   pearsonr (column (gt self) code (keys (gt self)))
                            (column predictions code (keys (gt self))))
                sits ;;
     Ok (fold_left fl_add rs a)).
Proof.
  intros Hg Hp. induction sits as [|sit sits IH]; intros Hs a.
  - reflexivity.
  - cbn [sum_correlations mapM].
    rewrite (build_lists_ok self predictions sit (keys (gt self)) Hg Hp
               (Hs sit (or_introl eq_refl))).
    cbn [bind fst snd app].
    destruct (pearsonr (column (gt self) sit (keys (gt self)))
                       (column predictions sit (keys (gt self)))) as [r|e];
      cbn [bind]; [|reflexivity].
    rewrite IH by (intros s Hin; apply Hs; now right).
    destruct (mapM _ sits) as [rs|e]; reflexivity.
Qed.

Lemma fl_div_four (a : float) : fl_div_nat a 4 = Ok (a / 4)%float.
Proof. reflexivity. Qed.

(** The score in closed form, for any iteration order of the set of
    situations. *)
Lemma primary_score_closed_form (self : AIcrowdEvaluator)
    (predictions : dict json) (situations : list string) :
  float_scores (gt self) (keys (gt self)) ->
  float_scores predictions (keys (gt self)) ->
  Permutation situations situation_set ->
  compute_primary_score pearsonr self situations predictions =
  spec_primary_score pearsonr self predictions situations.
Proof.
  intros Hg Hp Hperm. unfold compute_primary_score, spec_primary_score.
  rewrite (sum_correlations_ok self predictions situations Hg Hp).
  - rewrite (Permutation_length Hperm).
    change (List.length situation_set) with 4.
    destruct (mapM _ situations) as [rs|e]; cbn [bind]; [|reflexivity].
    apply fl_div_four.
  - intros s Hs. apply (Permutation_in s Hperm) in Hs. exact Hs.
Qed.

End ScoringFacts.

(** *** Ground truth and validated predictions hold floats *)

Lemma lookup_value {V : Type} (d : dict V) (k : string) (v : V) :
  lookup d k = Some v -> In (k, v) d.
Proof.
  induction d as [|[k' v'] d IH]; simpl; [discriminate|].
  destruct (String.eqb_spec k k') as [->|_]; intros H.
  - injection H as ->. now left.
  - right. now apply IH.
Qed.


Lemma json_number_float (v : json) :
  is_json_number v = true ->
  is_number v = true /\ py_float v = Ok (float_of v).
Proof.
  destruct v as [| |z|f| | |]; try discriminate;
    cbn [is_json_number is_number py_float float_of].
  - intros ->. now split.
  - intros _. now split.
Qed.

Lemma schema_record (g : dict json) (u : string) :
  gt_schema g = true -> In u (keys g) ->
  exists record,
    lookup g u = Some (JDict record)
    /\ List.length record = 4
    /\ unique_keys record = true
    /\ forallb (fun k => mem k REQUIRED_SITUATION_CODES) (keys record) = true
    /\ forall sit, In sit REQUIRED_SITUATION_CODES ->
         exists v, lookup record sit = Some v /\ is_json_number v = true.
Proof.
  intros Hg Hu. apply lookup_In in Hu as (rj & Hrj).
  unfold gt_schema in Hg. rewrite forallb_forall in Hg.
  pose proof (Hg _ (lookup_value _ _ _ Hrj)) as Hrec. cbn [snd] in Hrec.
  destruct rj as [| | | | | |record]; try discriminate.
  cbn [score_record] in Hrec.
  apply andb_true_iff in Hrec as [Hrec Hnum].
  apply andb_true_iff in Hrec as [Hrec Hcodes].
  apply andb_true_iff in Hrec as [Hlen Hun].
  apply Nat.eqb_eq in Hlen.
  exists record. repeat split; try assumption.
  intros sit Hs.
  destruct (four_codes_present record Hun Hlen Hcodes sit Hs) as (v & Hv).
  exists v. split; [exact Hv|].
  rewrite forallb_forall in Hnum.
  exact (Hnum _ (lookup_value _ _ _ Hv)).
Qed.

Lemma gt_schema_float_scores (g : dict json) :
  gt_schema g = true -> float_scores g (keys g).
Proof.
  intros Hg u sit Hu Hs.
  destruct (schema_record g u Hg Hu) as (record & Hl & _ & _ & _ & Hv).
  destruct (Hv sit Hs) as (v & Hv' & Hn).
  exists record, v. repeat split; try assumption.
  unfold score_at, entry. rewrite Hl, Hv'.
  now apply json_number_float in Hn.
Qed.


Lemma float_field_inv (scores : json) (code : string) (r : json) :
  float_field scores code = Ok r ->
  exists v f, py_getitem scores code = Ok v /\ py_float v = Ok f
              /\ r = JFloat f.
Proof.
  unfold float_field. intros H.
  apply bind_ok_inv in H as (v & Hv & H).
  apply bind_ok_inv in H as (f & Hf & H).
  injection H as <-. now exists v, f.
Qed.

Lemma float_record_inv (scores r : json) :
  float_record scores = Ok r ->
  forall sit, In sit REQUIRED_SITUATION_CODES ->
    exists record v f,
      r = JDict record /\ lookup record sit = Some (JFloat f)
      /\ py_getitem scores sit = Ok v /\ py_float v = Ok f.
Proof.
  unfold float_record. intros H.
  apply bind_ok_inv in H as (a & Ha & H).
  apply bind_ok_inv in H as (i & Hi & H).
  apply bind_ok_inv in H as (b & Hb & H).
  apply bind_ok_inv in H as (w & Hw & H).
  injection H as <-.
  apply float_field_inv in Ha as (va & fa & Ha & Fa & ->).
  apply float_field_inv in Hi as (vi & fi & Hi & Fi & ->).
  apply float_field_inv in Hb as (vb & fb & Hb & Fb & ->).
  apply float_field_inv in Hw as (vw & fw & Hw & Fw & ->).
  intros sit Hs. simpl in Hs. destruct Hs as [<-|[<-|[<-|[<-|[]]]]].
  - exists [("acc", JFloat fa); ("it", JFloat fi); ("bank", JFloat fb);
            ("wait", JFloat fw)], va, fa. now repeat split.
  - exists [("acc", JFloat fa); ("it", JFloat fi); ("bank", JFloat fb);
            ("wait", JFloat fw)], vi, fi. now repeat split.
  - exists [("acc", JFloat fa); ("it", JFloat fi); ("bank", JFloat fb);
            ("wait", JFloat fw)], vb, fb. now repeat split.
  - exists [("acc", JFloat fa); ("it", JFloat fi); ("bank", JFloat fb);
            ("wait", JFloat fw)], vw, fw. now repeat split.
Qed.

Section Validated.

Variable str_other : json -> string.
Variable self : AIcrowdEvaluator.
Variables items predictions : dict json.

Hypothesis items_unique : unique_keys items = true.
Hypothesis loaded :
  load_predictions_parsed str_other self (JDict items) = Ok predictions.

Lemma validated_count :
  List.length (keys items) = List.length (keys (gt self)).
Proof.
  pose proof loaded as H. unfold load_predictions_parsed in H.
  destruct (Nat.eqb_spec (List.length (keys items))
                         (List.length (keys (gt self)))) as [He|Hne];
    [exact He | discriminate].
Qed.

Lemma validated_loop :
  load_loop str_other self items (keys items) 0 [] = Ok predictions.
Proof. rewrite <- loaded. symmetry. apply load_parsed_loop, validated_count. Qed.

Lemma validated_record (u : string) :
  In u (keys items) ->
  exists r, record_body str_other self items 0 u = Ok r
            /\ lookup predictions u = Some r.
Proof.
  intros Hu. pose proof (proj1 (distinct_NoDup _) items_unique) as Hnd.
  destruct (proj1 (load_loop_lookup str_other self items _ _ _ _
                     validated_loop Hnd u) Hu) as (i & r & Hr & Hl).
  exists r. split; [|exact Hl].
  apply record_body_ok_iff in Hr. now apply record_body_ok_iff.
Qed.

Lemma validated_incl : incl (keys items) (keys (gt self)).
Proof.
  intros u Hu. destruct (validated_record u Hu) as (r & Hr & _).
  apply record_body_ok_iff in Hr. apply mem_In. tauto.
Qed.

Lemma validated_covers : incl (keys (gt self)) (keys items).
Proof.
  pose proof (proj1 (distinct_NoDup _) items_unique) as Hnd.
  apply (NoDup_length_incl Hnd);
    [rewrite validated_count; lia | exact validated_incl].
Qed.


(** [predictions[u][sit]] is [float(submission[u][sit])]. *)
Lemma validated_score (u sit : string) :
  In u (keys items) -> In sit REQUIRED_SITUATION_CODES ->
  exists scores record v,
    lookup items u = Some scores /\ py_getitem scores sit = Ok v
    /\ lookup predictions u = Some (JDict record)
    /\ lookup record sit = Some (JFloat (score_at predictions sit u))
    /\ py_float v = Ok (score_at predictions sit u).
Proof.
  intros Hu Hs. destruct (validated_record u Hu) as (r & Hr & Hl).
  apply record_body_ok_iff in Hr
    as (_ & scores & Hsc & _ & _ & _ & Hfr).
  destruct (float_record_inv scores r Hfr sit Hs)
    as (record & v & f & -> & Hrec & Hv & Hf).
  exists scores, record, v.
  assert (E : score_at predictions sit u = f)
    by (unfold score_at, entry; now rewrite Hl, Hrec).
  rewrite E. now repeat split.
Qed.

Lemma validated_float_scores : float_scores predictions (keys (gt self)).
Proof.
  intros u sit Hu Hs. apply validated_covers in Hu.
  destruct (validated_score u sit Hu Hs)
    as (scores & record & v & _ & _ & Hl & Hrec & _).
  exists record, (JFloat (score_at predictions sit u)). now repeat split.
Qed.

End Validated.


Lemma compute_primary_score_closed
    (pearsonr : list json -> list json -> result float)
    (str_other : json -> string) (self : AIcrowdEvaluator)
    (items predictions : dict json) (situations : list string) :
  gt_schema (gt self) = true ->
  unique_keys items = true ->
  load_predictions_parsed str_other self (JDict items) = Ok predictions ->
  Permutation situations situation_set ->
  compute_primary_score pearsonr self situations predictions =
  spec_primary_score pearsonr self predictions situations.
Proof.
  intros Hg Hu Hl Hp. apply primary_score_closed_form.
  - now apply gt_schema_float_scores.
  - exact (validated_float_scores str_other self items predictions Hu Hl).
  - exact Hp.
Qed.

(** C1: for a ground truth that follows its schema and a predictions
    mapping that [load_predictions] returned, [compute_primary_score]
    returns the mean of the four coefficients: for each situation code, in
    the order in which the set is iterated, it hands [pearsonr] the vector
    of [groundTruth[profile][code]] and the vector of
    [predictions[profile][code]], both taken over the ground truth's
    profiles in its iteration order; it sums the four coefficients,
    starting from 0, and divides the sum by 4.  The coefficient itself is
    what the library's [pearsonr] returns for the two vectors, and an
    exception of [pearsonr] is passed on. *)
Theorem compute_primary_score_is_mean
    (pearsonr : list json -> list json -> result float)
    (str_other : json -> string) (self : AIcrowdEvaluator)
    (items predictions : dict json) (situations : list string) :
  gt_schema (gt self) = true ->
  unique_keys items = true ->
  load_predictions_parsed str_other self (JDict items) = Ok predictions ->
  Permutation situations situation_set ->
  compute_primary_score pearsonr self situations predictions =
  spec_primary_score pearsonr self predictions situations.
Proof.
  intros Hg Hu Hl Hp.
  now apply (compute_primary_score_closed pearsonr str_other self items).
Qed.

Lemma compute_primary_score_is_mean_witness :
  compute_primary_score pearson_reference sample_self
    ["wait"; "acc"; "bank"; "it"] sample_predictions =
  spec_primary_score pearson_reference sample_self sample_predictions
    ["wait"; "acc"; "bank"; "it"].
Proof.
  apply (compute_primary_score_is_mean pearson_reference no_str sample_self
           sample_gt sample_predictions ["wait"; "acc"; "bank"; "it"]);
    try reflexivity.
  apply Permutation_sym.
  apply (Permutation_cons_app ["wait"] ["bank"; "it"] "acc").
  apply (Permutation_cons_app ["wait"; "bank"] [] "it").
  apply (Permutation_cons_app ["wait"] [] "bank").
  apply Permutation_refl.
Defined.

Lemma validated_keys_are_ground_truth_keys_witness :
  (forall k, In k (keys sample_predictions) <-> In k (keys sample_gt))
  /\ List.length (keys sample_predictions) = List.length (keys sample_gt).
Proof.
  apply (validated_keys_are_ground_truth_keys no_str sample_self sample_fs
           "my prediction file.json" sample_gt sample_predictions);
    reflexivity.
Defined.

(** *** A verbatim copy of the ground truth *)






(** For the spec's example the stand-in coefficient is 1.0 in every
    category, and so is the score. *)
Example sample_scores_one :
  compute_primary_score pearson_reference sample_self situation_set
    sample_predictions = Ok one.
Proof. vm_compute. reflexivity. Qed.



(** *** Reordering the profiles *)





(** *** The stand-in coefficient does not depend on the order *)

Lemma Qsum_perm (l l' : list Q) : Permutation l l' -> (Qsum l == Qsum l')%Q.
Proof.
  induction 1 as [|x l l' _ IH|x y l|l l' l'' _ IH1 _ IH2]; cbn [Qsum fold_right].
  - reflexivity.
  - fold (Qsum l) (Qsum l'). now rewrite IH.
  - fold (Qsum l). ring.
  - now rewrite IH1.
Qed.

Lemma Qsum_map_ext {A : Type} (f g : A -> Q) (l : list A) :
  (forall a, (f a == g a)%Q) -> (Qsum (map f l) == Qsum (map g l))%Q.
Proof.
  intros H. induction l as [|a l IH]; cbn [map Qsum fold_right];
    [reflexivity|].
  fold (Qsum (map f l)) (Qsum (map g l)). now rewrite IH, (H a).
Qed.

Lemma Qsum_map_perm {A : Type} (f g : A -> Q) (l l' : list A) :
  (forall a, (f a == g a)%Q) -> Permutation l l' ->
  (Qsum (map f l) == Qsum (map g l'))%Q.
Proof.
  intros H Hp. rewrite (Qsum_map_ext f g l H).
  apply Qsum_perm. now apply Permutation_map.
Qed.

Lemma reference_formula_perm (l l' : list (Q * Q)) :
  Permutation l l' -> reference_formula l = reference_formula l'.
Proof.
  intros Hp. unfold reference_formula.
  rewrite <- (Permutation_length Hp).
  set (n := inject_Z (Z.of_nat (List.length l))).
  set (xbar := (Qsum (map fst l) / n)%Q).
  set (ybar := (Qsum (map snd l) / n)%Q).
  set (xbar' := (Qsum (map fst l') / n)%Q).
  set (ybar' := (Qsum (map snd l') / n)%Q).
  assert (Hx : (xbar == xbar')%Q).
  { unfold xbar, xbar'.
    now rewrite (Qsum_perm _ _ (Permutation_map fst Hp)). }
  assert (Hy : (ybar == ybar')%Q).
  { unfold ybar, ybar'.
    now rewrite (Qsum_perm _ _ (Permutation_map snd Hp)). }
  assert (Hnum : (Qsum (map (fun p => (fst p - xbar) * (snd p - ybar)) l) ==
                  Qsum (map (fun p => (fst p - xbar') * (snd p - ybar')) l'))%Q).
  { apply Qsum_map_perm; [|exact Hp]. intros a. now rewrite Hx, Hy. }
  assert (Hxx : (Qsum (map (fun p => (fst p - xbar) * (fst p - xbar)) l) ==
                 Qsum (map (fun p => (fst p - xbar') * (fst p - xbar')) l'))%Q).
  { apply Qsum_map_perm; [|exact Hp]. intros a. now rewrite Hx. }
  assert (Hyy : (Qsum (map (fun p => (snd p - ybar) * (snd p - ybar)) l) ==
                 Qsum (map (fun p => (snd p - ybar') * (snd p - ybar')) l'))%Q).
  { apply Qsum_map_perm; [|exact Hp]. intros a. now rewrite Hy. }
  set (num := Qsum (map (fun p => (fst p - xbar) * (snd p - ybar))%Q l)) in *.
  set (sxx := Qsum (map (fun p => (fst p - xbar) * (fst p - xbar))%Q l)) in *.
  set (syy := Qsum (map (fun p => (snd p - ybar) * (snd p - ybar))%Q l)) in *.
  set (num' := Qsum (map (fun p => (fst p - xbar') * (snd p - ybar'))%Q l')) in *.
  set (sxx' := Qsum (map (fun p => (fst p - xbar') * (fst p - xbar'))%Q l')) in *.
  set (syy' := Qsum (map (fun p => (snd p - ybar') * (snd p - ybar'))%Q l')) in *.
  assert (Hden : (sxx * syy == sxx' * syy')%Q) by now rewrite Hxx, Hyy.
  rewrite (Qred_complete _ _ Hnum), (Qred_complete _ _ Hden).
  destruct (Qeq_bool (sxx * syy) 0) eqn:E; destruct (Qeq_bool (sxx' * syy') 0) eqn:E';
    try reflexivity.
  - apply Qeq_bool_iff in E. rewrite Hden in E. apply Qeq_bool_iff in E.
    congruence.
  - apply Qeq_bool_iff in E'. rewrite <- Hden in E'. apply Qeq_bool_iff in E'.
    congruence.
Qed.

Lemma exact_pairs_perm (l l' : list (float * float)) :
  Permutation l l' ->
  match exact_pairs l, exact_pairs l' with
  | Some a, Some b => Permutation a b
  | None, None => True
  | _, _ => False
  end.
Proof.
  induction 1 as [|[x y] l l' _ IH|[x y] [x' y'] l|l l' l'' _ IH1 _ IH2].
  - simpl. constructor.
  - cbn [exact_pairs]. destruct (exact x), (exact y);
      destruct (exact_pairs l), (exact_pairs l'); simpl; auto.
  - cbn [exact_pairs].
    destruct (exact x), (exact y), (exact x'), (exact y');
      destruct (exact_pairs l); simpl;
      auto using perm_swap, Permutation_refl.
  - destruct (exact_pairs l), (exact_pairs l'), (exact_pairs l'');
      try easy. now apply perm_trans with l1.
Qed.

Lemma combine_fst {A B : Type} (x : list A) (y : list B) :
  List.length x = List.length y -> map fst (combine x y) = x.
Proof.
  revert y. induction x as [|a x IH]; intros [|b y] H; try discriminate;
    [reflexivity|].
  cbn [combine map fst]. f_equal. apply IH. now injection H.
Qed.

Lemma combine_snd {A B : Type} (x : list A) (y : list B) :
  List.length x = List.length y -> map snd (combine x y) = y.
Proof.
  revert y. induction x as [|a x IH]; intros [|b y] H; try discriminate;
    [reflexivity|].
  cbn [combine map snd]. f_equal. apply IH. now injection H.
Qed.

Lemma combine_map_both {A B C D : Type} (f : A -> C) (g : B -> D)
    (x : list A) (y : list B) :
  combine (map f x) (map g y) =
  map (fun p => (f (fst p), g (snd p))) (combine x y).
Proof.
  revert y. induction x as [|a x IH]; intros [|b y]; try reflexivity.
  cbn [map combine fst snd]. now rewrite IH.
Qed.

Lemma forallb_perm {A : Type} (f : A -> bool) (l l' : list A) :
  Permutation l l' -> forallb f l = forallb f l'.
Proof.
  induction 1 as [|x l l' _ IH|x y l|l l' l'' _ IH1 _ IH2]; cbn [forallb].
  - reflexivity.
  - now rewrite IH.
  - destruct (f x), (f y); reflexivity.
  - now rewrite IH1.
Qed.

Lemma mapM_py_float_numbers (x : list json) :
  forallb is_number x = true ->
  mapM py_float x =
  if forallb convertible x then Ok (map float_of x) else Raise OverflowError.
Proof.
  induction x as [|v x IH]; [reflexivity|].
  cbn [forallb mapM map]. intros H. apply andb_true_iff in H as [Hv Hx].
  rewrite (IH Hx).
  destruct v as [| |z|f| | |]; try discriminate;
    cbn [py_float convertible float_of].
  - destruct (Z.abs z <? float_int_limit)%Z; cbn [bind andb]; [|reflexivity].
    destruct (forallb convertible x); reflexivity.
  - cbn [bind andb]. destruct (forallb convertible x); reflexivity.
Qed.

(** The stand-in coefficient is of the kind that C8 asks for. *)
Lemma pearson_reference_invariant : reorder_invariant pearson_reference.
Proof.
  intros x y x' y' Hxy Hxy' Nx Ny Hp.
  pose proof (Permutation_map fst Hp) as Px.
  pose proof (Permutation_map snd Hp) as Py.
  rewrite (combine_fst x y Hxy), (combine_fst x' y' Hxy') in Px.
  rewrite (combine_snd x y Hxy), (combine_snd x' y' Hxy') in Py.
  unfold pearson_reference.
  rewrite <- (Permutation_length Px), <- (Permutation_length Py).
  destruct (negb (Nat.eqb (List.length x) (List.length y))); [reflexivity|].
  destruct (Nat.ltb (List.length x) 2); [reflexivity|].
  rewrite (mapM_py_float_numbers x Nx), (mapM_py_float_numbers y Ny).
  rewrite (mapM_py_float_numbers x')
    by (rewrite <- (forallb_perm is_number x x' Px); exact Nx).
  rewrite (mapM_py_float_numbers y')
    by (rewrite <- (forallb_perm is_number y y' Py); exact Ny).
  rewrite <- (forallb_perm convertible x x' Px).
  rewrite <- (forallb_perm convertible y y' Py).
  destruct (forallb convertible x); cbn [bind]; [|reflexivity].
  destruct (forallb convertible y); cbn [bind]; [|reflexivity].
  rewrite !combine_map_both.
  pose proof (exact_pairs_perm _ _
                (Permutation_map
                   (fun p : json * json => (float_of (fst p), float_of (snd p)))
                   Hp)) as He.
  destruct (exact_pairs (map _ (combine x y))) as [l|];
    destruct (exact_pairs (map _ (combine x' y'))) as [l'|]; try easy.
  now rewrite (reference_formula_perm l l' He).
Qed.


(** With the stand-in coefficient the swapped example scores what the
    example scores. *)
Example sample_swapped_same_score :
  load_predictions_parsed no_str sample_self_swapped (JDict sample_gt_swapped)
  = Ok sample_predictions_swapped
  /\ compute_primary_score pearson_reference sample_self_swapped
    ["it"; "acc"; "bank"; "wait"] sample_predictions_swapped =
  compute_primary_score pearson_reference sample_self
    ["it"; "acc"; "bank"; "wait"] sample_predictions.
Proof. split; [reflexivity | vm_compute; reflexivity]. Qed.

(** ** The entry point: [_evaluate] *)

(** C10: the outcome of [_evaluate] is the same for any two dicts bound to
    [_context], the shared default included, and the dict is left as it was:
    [_context] is neither read nor written. *)
Theorem evaluate_ignores_context
    (str_other : json -> string)
    (pearsonr : list json -> list json -> result float)
    (self : AIcrowdEvaluator) (fs : file_system)
    (situations : list string) (client_payload : dict string)
    (context context' : dict json) :
  returned (_evaluate str_other pearsonr self fs situations client_payload
              context)
  = returned (_evaluate str_other pearsonr self fs situations client_payload
                context')
  /\ context_after
       (_evaluate str_other pearsonr self fs situations client_payload context)
     = context
  /\ returned
       (_evaluate_default str_other pearsonr self fs situations client_payload
          context)
     = returned (_evaluate str_other pearsonr self fs situations client_payload
                   context')
  /\ context_after
       (_evaluate_default str_other pearsonr self fs situations client_payload
          context)
     = context.
Proof. repeat split. Qed.

(** * Further properties of the evaluator *)

(** ** The order of the checks *)

(** X1: validation is all or nothing and reports the first failure.  Once
    the count check has passed, [load_predictions] fails with [e] exactly
    when some record raises [e] in the loop body and all the records before
    it were accepted; the records after it are never looked at. *)
Theorem load_fails_at_first_bad_record
    (str_other : json -> string) (self : AIcrowdEvaluator) (items : dict json)
    (e : exn) :
  List.length (keys items) = List.length (keys (gt self)) ->
  (load_predictions_parsed str_other self (JDict items) = Raise e <->
   exists pre p post,
     keys items = (pre ++ p :: post)%list
     /\ is_ok (load_loop str_other self items pre 0 []) = true
     /\ record_body str_other self items (S (List.length pre)) p = Raise e).
Proof.
  intros Hlen. split.
  - rewrite load_parsed_loop by exact Hlen. intros H.
    apply load_loop_fails_first in H as (pre & p & post & Hk & Hpre & H).
    exists pre, p, post. now repeat split.
  - intros (pre & p & post & Hk & Hpre & H).
    now apply (load_at_first_failure str_other self items pre p post).
Qed.

Lemma load_fails_at_first_bad_record_witness :
  load_predictions_parsed no_str sample_self (JDict sample_unknown) =
  Raise (Exception [ArgStr (unknown_profile_message "u3" ++ record_suffix 2)])
  <-> exists pre p post,
        keys sample_unknown = (pre ++ p :: post)%list
        /\ is_ok (load_loop no_str sample_self sample_unknown pre 0 []) = true
        /\ record_body no_str sample_self sample_unknown (S (List.length pre)) p
           = Raise (Exception [ArgStr (unknown_profile_message "u3"
                                       ++ record_suffix 2)]).
Proof.
  apply (load_fails_at_first_bad_record no_str sample_self sample_unknown).
  reflexivity.
Defined.

(** X2: a record of a known profile whose length is not 4 (an object with
    3 or 5 fields, but also an array or a string of another length) is
    rejected with the field-count message, whatever its field names and
    values are, when the count check passes and the earlier records are
    accepted. *)
Theorem wrong_field_count_rejected
    (str_other : json -> string) (self : AIcrowdEvaluator) (items : dict json)
    (pre : list string) (p : string) (post : list string)
    (scores : json) (n : nat) :
  keys items = (pre ++ p :: post)%list ->
  List.length (keys items) = List.length (keys (gt self)) ->
  is_ok (load_loop str_other self items pre 0 []) = true ->
  mem p (keys (gt self)) = true ->
  lookup items p = Some scores ->
  py_len scores = Ok n ->
  n <> 4 ->
  load_predictions_parsed str_other self (JDict items) =
  Raise (Exception [ArgStr (field_count_message p
                            ++ record_suffix (S (List.length pre)))]).
Proof.
  intros Hk Hcount Hpre Hmem Hlk Hlen Hn.
  apply (load_at_first_failure str_other self items pre p post); try assumption.
  unfold record_body. rewrite Hmem. cbn [negb bind].
  rewrite (proj2 (dict_get_ok items p scores) Hlk). cbn [bind].
  rewrite Hlen. cbn [bind]. rewrite raise_field_count.
  destruct (Nat.eqb_spec n 4) as [E|_]; [contradiction | reflexivity].
Qed.

Lemma wrong_field_count_rejected_witness :
  load_predictions_parsed no_str sample_self (JDict sample_three_fields) =
  Raise (Exception [ArgStr (field_count_message "u2" ++ record_suffix 2)]).
Proof.
  apply (wrong_field_count_rejected no_str sample_self sample_three_fields
           ["u1"] "u2" []
           (JDict [("acc", JInt 20); ("it", JInt 10); ("bank", JInt 10)]) 3);
    try reflexivity.
  discriminate.
Defined.

Lemma check_score_names_first_bad (str_other : json -> string)
    (good : list json) (x : json) (rest : list json) (n : nat) (p : string) :
  forallb is_situation_code good = true ->
  is_situation_code x = false ->
  check_score_names str_other (good ++ x :: rest)%list n p =
  Raise (Exception [ArgStr (unknown_code_message (py_str str_other x) p
                            ++ record_suffix n)]).
Proof.
  intros Hgood Hx. induction good as [|g good IH]; cbn [app check_score_names].
  - rewrite raise_unknown_code, Hx. reflexivity.
  - cbn [forallb] in Hgood. apply andb_true_iff in Hgood as [Hg Hgood].
    rewrite Hg. cbn [negb bind]. now apply IH.
Qed.

(** X3: a record of a known profile with four fields, one of which is not a
    situation code, is rejected with the unknown-situation-code message; the
    message names the first such field in the record's iteration order, and
    the scores are not looked at. *)
Theorem unknown_situation_code_rejected
    (str_other : json -> string) (self : AIcrowdEvaluator) (items : dict json)
    (pre : list string) (p : string) (post : list string)
    (scores : json) (good : list json) (x : json) (rest : list json) :
  keys items = (pre ++ p :: post)%list ->
  List.length (keys items) = List.length (keys (gt self)) ->
  is_ok (load_loop str_other self items pre 0 []) = true ->
  mem p (keys (gt self)) = true ->
  lookup items p = Some scores ->
  py_len scores = Ok 4 ->
  py_iter scores = Ok (good ++ x :: rest)%list ->
  forallb is_situation_code good = true ->
  is_situation_code x = false ->
  load_predictions_parsed str_other self (JDict items) =
  Raise (Exception [ArgStr (unknown_code_message (py_str str_other x) p
                            ++ record_suffix (S (List.length pre)))]).
Proof.
  intros Hk Hcount Hpre Hmem Hlk Hlen Hit Hgood Hx.
  apply (load_at_first_failure str_other self items pre p post); try assumption.
  unfold record_body. rewrite Hmem. cbn [negb bind].
  rewrite (proj2 (dict_get_ok items p scores) Hlk). cbn [bind].
  rewrite Hlen. cbn [bind Nat.eqb negb]. rewrite Hit. cbn [bind].
  now rewrite (check_score_names_first_bad str_other good x rest _ p Hgood Hx).
Qed.

Lemma unknown_situation_code_rejected_witness :
  load_predictions_parsed no_str sample_self (JDict sample_bad_code) =
  Raise (Exception [ArgStr (unknown_code_message "loan" "u2"
                            ++ record_suffix 2)]).
Proof.
  apply (unknown_situation_code_rejected no_str sample_self sample_bad_code
           ["u1"] "u2" []
           (JDict [("acc", JInt 20); ("it", JInt 10); ("loan", JInt 10);
                   ("wait", JInt 20)])
           [JStr "acc"; JStr "it"] (JStr "loan") [JStr "wait"]);
    reflexivity.
Defined.

(** ** What is accepted, and what is returned *)

Lemma convertible_iff (v : json) :
  convertible v = true <->
  is_number v = true /\ exists f, py_float v = Ok f.
Proof.
  destruct v as [| |z|f| | |]; cbn [convertible is_number py_float];
    try (split; [discriminate | intros [H _]; discriminate]).
  - destruct (Z.abs z <? float_int_limit)%Z.
    + split; [eauto | reflexivity].
    + split; [discriminate | intros [_ [f H]]; discriminate].
  - split; [eauto | reflexivity].
Qed.

Lemma float_record_eq (scores r : json) :
  float_record scores = Ok r ->
  exists va vi vb vw fa fi fb fw,
    py_getitem scores "acc" = Ok va /\ py_float va = Ok fa
    /\ py_getitem scores "it" = Ok vi /\ py_float vi = Ok fi
    /\ py_getitem scores "bank" = Ok vb /\ py_float vb = Ok fb
    /\ py_getitem scores "wait" = Ok vw /\ py_float vw = Ok fw
    /\ r = scores4 (JFloat fa) (JFloat fi) (JFloat fb) (JFloat fw).
Proof.
  unfold float_record. intros H.
  apply bind_ok_inv in H as (a & Ha & H).
  apply bind_ok_inv in H as (i & Hi & H).
  apply bind_ok_inv in H as (b & Hb & H).
  apply bind_ok_inv in H as (w & Hw & H).
  injection H as <-.
  apply float_field_inv in Ha as (va & fa & Ha & Fa & ->).
  apply float_field_inv in Hi as (vi & fi & Hi & Fi & ->).
  apply float_field_inv in Hb as (vb & fb & Hb & Fb & ->).
  apply float_field_inv in Hw as (vw & fw & Hw & Fw & ->).
  exists va, vi, vb, vw, fa, fi, fb, fw. now repeat split.
Qed.

Lemma py_getitem_dict (scores : json) (code : string) (v : json) :
  py_getitem scores code = Ok v ->
  exists d, scores = JDict d /\ lookup d code = Some v.
Proof.
  destruct scores; cbn [py_getitem]; try discriminate.
  intros H. apply dict_get_ok in H. eauto.
Qed.

(** The checks of the loop body on the record itself, in one predicate. *)
Lemma acceptable_record_iff (scores : json) :
  acceptable_record scores = true <->
  py_len scores = Ok 4
  /\ (exists names, py_iter scores = Ok names
                    /\ forallb is_situation_code names = true)
  /\ (forall code, In code REQUIRED_SITUATION_CODES ->
                   exists v, py_getitem scores code = Ok v
                             /\ is_number v = true)
  /\ exists r, float_record scores = Ok r.
Proof.
  split.
  - destruct scores as [| | | | | |d]; try discriminate.
    cbn [acceptable_record]. intros H.
    apply andb_true_iff in H as [H Hconv].
    apply andb_true_iff in H as [Hlen Hcodes].
    apply Nat.eqb_eq in Hlen. rewrite forallb_forall in Hconv.
    assert (Hv : forall code, In code REQUIRED_SITUATION_CODES ->
               exists v f, lookup d code = Some v /\ is_number v = true
                           /\ py_float v = Ok f).
    { intros code Hc. specialize (Hconv code Hc).
      destruct (lookup d code) as [v|]; [|discriminate].
      apply convertible_iff in Hconv as (Hn & f & Hf). now exists v, f. }
    repeat split.
    + cbn [py_len]. now rewrite Hlen.
    + exists (map JStr (keys d)). split; [reflexivity|].
      now rewrite names_of_dict.
    + intros code Hc. destruct (Hv code Hc) as (v & f & Hl & Hn & _).
      exists v. split; [now apply dict_get_ok | exact Hn].
    + assert (Hf : forall code, In code REQUIRED_SITUATION_CODES ->
                 exists f, float_field (JDict d) code = Ok (JFloat f)).
      { intros code Hc. destruct (Hv code Hc) as (v & f & Hl & _ & Hf).
        exists f. unfold float_field. cbn [py_getitem].
        rewrite (proj2 (dict_get_ok d code v) Hl). cbn [bind].
        now rewrite Hf. }
      destruct (Hf "acc") as (fa & Ha); [simpl; tauto|].
      destruct (Hf "it") as (fi & Hi); [simpl; tauto|].
      destruct (Hf "bank") as (fb & Hb); [simpl; tauto|].
      destruct (Hf "wait") as (fw & Hw); [simpl; tauto|].
      exists (scores4 (JFloat fa) (JFloat fi) (JFloat fb) (JFloat fw)).
      unfold float_record. now rewrite Ha, Hi, Hb, Hw.
  - intros (Hlen & (names & Hit & Hnames) & Hnum & (r & Hr)).
    destruct (Hnum "acc") as (v0 & Hv0 & _); [simpl; tauto|].
    apply py_getitem_dict in Hv0 as (d & -> & _).
    cbn [acceptable_record py_len py_iter] in *.
    injection Hlen as Hlen. injection Hit as <-.
    rewrite names_of_dict in Hnames.
    rewrite Hlen, Hnames. cbn [Nat.eqb andb].
    apply float_record_eq in Hr
      as (va & vi & vb & vw & fa & fi & fb & fw
          & Ha & Fa & Hi & Fi & Hb & Fb & Hw & Fw & _).
    apply forallb_forall. intros code Hc.
    destruct (Hnum code Hc) as (v & Hv & Hn).
    cbn [py_getitem] in Hv, Ha, Hi, Hb, Hw.
    rewrite (proj1 (dict_get_ok d code v) Hv).
    apply convertible_iff. split; [exact Hn|].
    simpl in Hc. destruct Hc as [<-|[<-|[<-|[<-|[]]]]].
    + exists fa. congruence.
    + exists fi. congruence.
    + exists fb. congruence.
    + exists fw. congruence.
Qed.

Lemma record_accept_iff (str_other : json -> string) (self : AIcrowdEvaluator)
    (items : dict json) (n : nat) (p : string) :
  is_ok (record_body str_other self items n p) = true <->
  mem p (keys (gt self)) = true
  /\ exists scores, lookup items p = Some scores
                    /\ acceptable_record scores = true.
Proof.
  split.
  - destruct (record_body str_other self items n p) as [r|] eqn:H;
      [|discriminate]. intros _.
    apply record_body_ok_iff in H
      as (Hmem & scores & Hs & Hlen & Hnames & Hnum & Hr).
    split; [exact Hmem|]. exists scores. split; [exact Hs|].
    apply acceptable_record_iff. eauto.
  - intros (Hmem & scores & Hs & Hacc).
    apply acceptable_record_iff in Hacc as (Hlen & Hnames & Hnum & (r & Hr)).
    assert (H : record_body str_other self items n p = Ok r).
    { apply record_body_ok_iff. split; [exact Hmem|].
      exists scores. now repeat split. }
    now rewrite H.
Qed.

Lemma load_loop_accept_iff (str_other : json -> string)
    (self : AIcrowdEvaluator) (items : dict json)
    (ks : list string) (n : nat) (acc : dict json) :
  is_ok (load_loop str_other self items ks n acc) = true <->
  forall k, In k ks -> is_ok (record_body str_other self items 0 k) = true.
Proof.
  split.
  - revert n acc. induction ks as [|k ks IH]; intros n acc H k' Hk'; [easy|].
    cbn [load_loop] in H.
    destruct (record_body str_other self items (S n) k) as [r|] eqn:Hr;
      [|discriminate].
    cbn [bind] in H. destruct Hk' as [<-|Hk'].
    + apply record_body_ok_iff in Hr.
      apply (record_body_ok_iff str_other self items 0 k r) in Hr.
      now rewrite Hr.
    + exact (IH _ _ H k' Hk').
  - intros H.
    destruct (load_loop_total str_other self items ks n acc) as (preds & ->);
      [|reflexivity].
    intros k Hk. specialize (H k Hk).
    destruct (record_body str_other self items 0 k) as [r|]; [eauto|discriminate].
Qed.

Lemma load_accept_iff
    (str_other : json -> string) (self : AIcrowdEvaluator) (submission : json) :
  is_ok (load_predictions_parsed str_other self submission) = true <->
  acceptable (gt self) submission = true.
Proof.
  destruct submission as [| | | | | |items]; try (split; discriminate).
  cbn [load_predictions_parsed acceptable].
  destruct (Nat.eqb (List.length (keys items)) (List.length (keys (gt self))));
    cbn [negb andb]; [|split; discriminate].
  rewrite load_loop_accept_iff, forallb_forall.
  split; intros H k Hk; specialize (H k Hk).
  - apply record_accept_iff in H as (-> & scores & -> & ->). reflexivity.
  - apply record_accept_iff.
    apply andb_true_iff in H as [Hmem H]. split; [exact Hmem|].
    destruct (lookup items k) as [scores|]; [eauto | discriminate].
Qed.

(** X4: [load_predictions] returns a predictions mapping exactly for the
    parsed submissions that are a JSON object with as many profiles as the
    ground truth, all of them profiles of the ground truth, each with a
    record that is an object of four fields named by situation codes and
    holding an int within the float range or a float (not-a-number and the
    infinities included) under each of the four codes. *)
Theorem load_predictions_accepts_iff
    (str_other : json -> string) (self : AIcrowdEvaluator) (submission : json) :
  is_ok (load_predictions_parsed str_other self submission) = true <->
  acceptable (gt self) submission = true.
Proof. exact (load_accept_iff str_other self submission). Qed.

Lemma dict_ext {V : Type} (d d' : dict V) :
  keys d = keys d' -> NoDup (keys d) ->
  (forall k, In k (keys d) -> lookup d k = lookup d' k) ->
  d = d'.
Proof.
  revert d'. induction d as [|[k v] d IH]; intros [|[k' v'] d'] Hk Hnd Hl;
    try discriminate; [reflexivity|].
  cbn [keys map fst] in Hk. injection Hk as <- Hk.
  inversion Hnd as [|? ? Hnot Hnd']; subst.
  pose proof (Hl k (or_introl eq_refl)) as Hv. cbn [lookup] in Hv.
  rewrite String.eqb_refl in Hv. injection Hv as <-.
  f_equal. apply IH; [exact Hk | exact Hnd' |].
  intros k2 Hk2. specialize (Hl k2 (or_intror Hk2)). cbn [lookup] in Hl.
  destruct (String.eqb_spec k2 k) as [E|_]; [|exact Hl].
  elim Hnot. now rewrite <- E.
Qed.

Lemma lookup_map_keys {V W : Type} (f : string -> W) (d : dict V) (k : string) :
  In k (keys d) ->
  lookup (map (fun kv => (fst kv, f (fst kv))) d) k = Some (f k).
Proof.
  induction d as [|[k' v'] d IH]; cbn [keys map fst lookup]; [easy|].
  intros Hk. destruct (String.eqb_spec k k') as [->|Hne]; [reflexivity|].
  apply IH. destruct Hk as [E|Hk]; [congruence | exact Hk].
Qed.

Lemma keys_map_keys {V W : Type} (f : string -> W) (d : dict V) :
  keys (map (fun kv => (fst kv, f (fst kv))) d) = keys d.
Proof. unfold keys. rewrite map_map. reflexivity. Qed.

Lemma score_at_number (items : dict json) (u code : string)
    (scores v : json) (f : float) :
  lookup items u = Some scores -> py_getitem scores code = Ok v ->
  is_number v = true -> py_float v = Ok f ->
  score_at items code u = f.
Proof.
  intros Hs Hv Hn Hf.
  apply py_getitem_dict in Hv as (d & -> & Hv).
  unfold score_at, entry. rewrite Hs, Hv.
  destruct v as [| |z|g| | |]; try discriminate;
    cbn [py_float float_of] in *.
  - destruct (Z.abs z <? float_int_limit)%Z; [|discriminate].
    now injection Hf.
  - now injection Hf.
Qed.

Lemma load_predictions_shape (str_other : json -> string)
    (self : AIcrowdEvaluator) (items predictions : dict json) :
  unique_keys items = true ->
  load_predictions_parsed str_other self (JDict items) = Ok predictions ->
  predictions = map (fun kv => (fst kv, coerced items (fst kv))) items.
Proof.
  intros Hu Hload.
  pose proof (proj1 (distinct_NoDup _) Hu) as Hnd.
  pose proof (validated_loop str_other self items predictions Hload) as Hloop.
  pose proof (load_loop_keys str_other self items _ _ _ _ Hloop Hnd) as Hkeys.
  cbn [keys map app] in Hkeys. fold (keys predictions) in Hkeys.
  apply dict_ext.
  - now rewrite keys_map_keys.
  - now rewrite Hkeys.
  - intros u Hin. rewrite Hkeys in Hin.
    rewrite (lookup_map_keys (coerced items) items u Hin).
    destruct (validated_record str_other self items predictions Hu Hload u Hin)
      as (r & Hr & ->).
    apply record_body_ok_iff in Hr as (_ & scores & Hs & _ & _ & Hnum & Hr).
    apply float_record_eq in Hr
      as (va & vi & vb & vw & fa & fi & fb & fw
          & Ha & Fa & Hi & Fi & Hb & Fb & Hw & Fw & ->).
    destruct (Hnum "acc") as (va' & Ea & Na); [simpl; tauto|].
    destruct (Hnum "it") as (vi' & Ei & Ni); [simpl; tauto|].
    destruct (Hnum "bank") as (vb' & Eb & Nb); [simpl; tauto|].
    destruct (Hnum "wait") as (vw' & Ew & Nw); [simpl; tauto|].
    rewrite Ha in Ea. injection Ea as <-.
    rewrite Hi in Ei. injection Ei as <-.
    rewrite Hb in Eb. injection Eb as <-.
    rewrite Hw in Ew. injection Ew as <-.
    unfold coerced.
    rewrite (score_at_number items u "acc" scores va fa Hs Ha Na Fa).
    rewrite (score_at_number items u "it" scores vi fi Hs Hi Ni Fi).
    rewrite (score_at_number items u "bank" scores vb fb Hs Hb Nb Fb).
    rewrite (score_at_number items u "wait" scores vw fw Hs Hw Nw Fw).
    reflexivity.
Qed.

(** X5: the predictions mapping that [load_predictions] returns is the
    submission with every record replaced by its four scores as floats, in
    the order acc, it, bank, wait: the profiles keep the order of the
    submission, an int score [z] becomes [float(z)], the binary64 value
    nearest to [z] (9007199254740993 becomes 9007199254740992.0), a float
    score is unchanged, and the order of the fields in the submitted record
    plays no part. *)
Theorem load_predictions_returns_coerced_records
    (str_other : json -> string) (self : AIcrowdEvaluator)
    (items predictions : dict json) :
  unique_keys items = true ->
  load_predictions_parsed str_other self (JDict items) = Ok predictions ->
  predictions = map (fun kv => (fst kv, coerced items (fst kv))) items.
Proof. exact (load_predictions_shape str_other self items predictions). Qed.

Lemma load_predictions_returns_coerced_records_witness :
  sample_wide_predictions =
  map (fun kv => (fst kv, coerced sample_wide (fst kv))) sample_wide.
Proof.
  apply (load_predictions_returns_coerced_records no_str sample_self
           sample_wide sample_wide_predictions); reflexivity.
Defined.

Lemma coerced_fixed (items predictions : dict json) (u : string) :
  In u (keys items) ->
  predictions = map (fun kv => (fst kv, coerced items (fst kv))) items ->
  coerced predictions u = coerced items u.
Proof.
  intros Hin ->.
  assert (E : forall code, In code REQUIRED_SITUATION_CODES ->
            score_at (map (fun kv => (fst kv, coerced items (fst kv))) items)
                     code u = score_at items code u).
  { intros code Hc. unfold score_at at 1. unfold entry.
    rewrite (lookup_map_keys (coerced items) items u Hin).
    simpl in Hc. destruct Hc as [<-|[<-|[<-|[<-|[]]]]]; reflexivity. }
  unfold coerced. now rewrite !E by (simpl; tauto).
Qed.

(** X6: validation is idempotent.  The predictions mapping returned for a
    submission is itself a submission that [load_predictions] accepts, and
    it is returned unchanged. *)
Theorem load_predictions_idempotent
    (str_other : json -> string) (self : AIcrowdEvaluator)
    (items predictions : dict json) :
  unique_keys items = true ->
  load_predictions_parsed str_other self (JDict items) = Ok predictions ->
  load_predictions_parsed str_other self (JDict predictions) = Ok predictions.
Proof.
  intros Hu Hload.
  pose proof (load_predictions_shape str_other self items predictions Hu Hload)
    as Hshape.
  assert (Hkeys : keys predictions = keys items)
    by (rewrite Hshape; apply keys_map_keys).
  assert (Hu' : unique_keys predictions = true)
    by (unfold unique_keys; now rewrite Hkeys).
  destruct (load_predictions_parsed str_other self (JDict predictions))
    as [again|e] eqn:Hagain.
  - f_equal.
    rewrite (load_predictions_shape str_other self predictions again Hu' Hagain).
    set (G := fun kv : string * json => (fst kv, coerced predictions (fst kv))).
    rewrite Hshape. unfold G. rewrite map_map. cbn [fst].
    apply map_ext_in. intros [k v] Hin. cbn [fst]. f_equal.
    apply coerced_fixed; [|exact Hshape].
    apply in_map_iff. now exists (k, v).
  - assert (Hacc : is_ok (load_predictions_parsed str_other self
                            (JDict predictions)) = true).
    { apply load_accept_iff. cbn [acceptable].
      rewrite Hkeys.
      rewrite (validated_count str_other self items predictions Hload),
              Nat.eqb_refl. cbn [andb].
      apply forallb_forall. intros u Hin.
      rewrite (proj2 (mem_In u (keys (gt self))))
        by exact (validated_incl str_other self items predictions Hu Hload u Hin).
      rewrite Hshape, (lookup_map_keys (coerced items) items u Hin).
      reflexivity. }
    rewrite Hagain in Hacc. discriminate.
Qed.

Lemma load_predictions_idempotent_witness :
  load_predictions_parsed no_str sample_self (JDict sample_predictions) =
  Ok sample_predictions.
Proof.
  apply (load_predictions_idempotent no_str sample_self sample_gt
           sample_predictions); reflexivity.
Defined.

(** ** Failures that are not rejections *)

Lemma py_float_number (v : json) :
  is_number v = true ->
  (exists f, py_float v = Ok f /\ convertible v = true)
  \/ (py_float v = Raise OverflowError /\ convertible v = false).
Proof.
  destruct v as [| |z|f| | |]; try discriminate; intros _;
    cbn [py_float convertible].
  - destruct (Z.abs z <? float_int_limit)%Z; [left; eauto | right; eauto].
  - left. eauto.
Qed.

Lemma In_lookup {V : Type} (d : dict V) (k : string) (v : V) :
  NoDup (keys d) -> In (k, v) d -> lookup d k = Some v.
Proof.
  induction d as [|[k' v'] d IH]; cbn [keys map fst lookup]; [easy|].
  intros Hnd [E|Hin].
  - injection E as -> ->. now rewrite String.eqb_refl.
  - inversion Hnd as [|? ? Hnot Hnd']; subst.
    destruct (String.eqb_spec k k') as [->|_]; [|now apply IH].
    elim Hnot. apply in_map_iff. now exists (k', v).
Qed.

(** A record whose four scores are numbers passes every check; what is
    left is the coercion of the scores. *)
Lemma record_body_numbers (str_other : json -> string)
    (self : AIcrowdEvaluator) (items : dict json) (n : nat) (p : string)
    (d : dict json) :
  mem p (keys (gt self)) = true ->
  lookup items p = Some (JDict d) ->
  List.length d = 4 ->
  unique_keys d = true ->
  forallb (fun k => mem k REQUIRED_SITUATION_CODES) (keys d) = true ->
  forallb (fun kv => is_number (snd kv)) d = true ->
  record_body str_other self items n p = float_record (JDict d).
Proof.
  intros Hmem Hlk Hlen Hu Hcodes Hnum.
  assert (Hv : forall code, In code REQUIRED_SITUATION_CODES ->
             exists v, dict_get d code = Ok v /\ is_number v = true).
  { intros code Hc.
    destruct (four_codes_present d Hu Hlen Hcodes code Hc) as (v & Hv).
    exists v. split; [now apply dict_get_ok|].
    rewrite forallb_forall in Hnum.
    exact (Hnum _ (lookup_value _ _ _ Hv)). }
  unfold record_body. rewrite Hmem. cbn [negb bind].
  rewrite (proj2 (dict_get_ok items p (JDict d)) Hlk).
  cbn [bind py_len]. rewrite Hlen. cbn [Nat.eqb negb bind py_iter].
  rewrite (proj2 (check_score_names_ok str_other (map JStr (keys d)) n p))
    by (rewrite names_of_dict; exact Hcodes).
  cbn [bind]. rewrite !validate_field_eq. cbn [py_getitem].
  destruct (Hv "acc") as (va & -> & ->); [simpl; tauto|].
  destruct (Hv "it") as (vi & -> & ->); [simpl; tauto|].
  destruct (Hv "bank") as (vb & -> & ->); [simpl; tauto|].
  destruct (Hv "wait") as (vw & -> & ->); [simpl; tauto|].
  reflexivity.
Qed.

(** X7: an int score beyond the float range is no validation error.  A
    record of a known profile whose four scores all are ints or floats
    passes every check, and when one of the ints is too large for a float
    (its magnitude is at least 2^1024 - 2^970) [load_predictions] fails
    with [OverflowError], not with a rejection message. *)
Theorem int_beyond_float_range_overflows
    (str_other : json -> string) (self : AIcrowdEvaluator) (items : dict json)
    (pre : list string) (p : string) (post : list string) (d : dict json) :
  keys items = (pre ++ p :: post)%list ->
  List.length (keys items) = List.length (keys (gt self)) ->
  is_ok (load_loop str_other self items pre 0 []) = true ->
  mem p (keys (gt self)) = true ->
  lookup items p = Some (JDict d) ->
  List.length d = 4 ->
  unique_keys d = true ->
  forallb (fun k => mem k REQUIRED_SITUATION_CODES) (keys d) = true ->
  forallb (fun kv => is_number (snd kv)) d = true ->
  forallb (fun kv => convertible (snd kv)) d = false ->
  load_predictions_parsed str_other self (JDict items) = Raise OverflowError.
Proof.
  intros Hk Hcount Hpre Hmem Hlk Hlen Hu Hcodes Hnum Hbig.
  apply (load_at_first_failure str_other self items pre p post); try assumption.
  rewrite (record_body_numbers str_other self items _ p d) by assumption.
  assert (Hv : forall code, In code REQUIRED_SITUATION_CODES ->
             exists v, dict_get d code = Ok v /\ is_number v = true).
  { intros code Hc.
    destruct (four_codes_present d Hu Hlen Hcodes code Hc) as (v & Hv).
    exists v. split; [now apply dict_get_ok|].
    rewrite forallb_forall in Hnum.
    exact (Hnum _ (lookup_value _ _ _ Hv)). }
  destruct (Hv "acc") as (va & Ha & Na); [simpl; tauto|].
  destruct (Hv "it") as (vi & Hi & Ni); [simpl; tauto|].
  destruct (Hv "bank") as (vb & Hb & Nb); [simpl; tauto|].
  destruct (Hv "wait") as (vw & Hw & Nw); [simpl; tauto|].
  unfold float_record, float_field. cbn [py_getitem].
  rewrite Ha, Hi, Hb, Hw. cbn [bind].
  destruct (py_float_number va Na) as [(fa & -> & Ca)|[-> _]];
    cbn [bind]; [|reflexivity].
  destruct (py_float_number vi Ni) as [(fi & -> & Ci)|[-> _]];
    cbn [bind]; [|reflexivity].
  destruct (py_float_number vb Nb) as [(fb & -> & Cb)|[-> _]];
    cbn [bind]; [|reflexivity].
  destruct (py_float_number vw Nw) as [(fw & -> & Cw)|[-> _]];
    cbn [bind]; [|reflexivity].
  exfalso. apply not_true_iff_false in Hbig. apply Hbig.
  apply forallb_forall. intros [k v] Hin. cbn [snd].
  rewrite forallb_forall in Hcodes.
  assert (Hkc : In k REQUIRED_SITUATION_CODES).
  { apply mem_In, Hcodes. apply in_map_iff. now exists (k, v). }
  pose proof (In_lookup d k v (proj1 (distinct_NoDup _) Hu) Hin) as Hl.
  apply dict_get_ok in Hl.
  simpl in Hkc. destruct Hkc as [<-|[<-|[<-|[<-|[]]]]]; congruence.
Qed.

Lemma int_beyond_float_range_overflows_witness :
  load_predictions_parsed no_str sample_self (JDict sample_huge) =
  Raise OverflowError.
Proof.
  apply (int_beyond_float_range_overflows no_str sample_self sample_huge
           ["u1"] "u2" []
           [("acc", JInt 20); ("it", JInt 10); ("bank", JInt (2 ^ 1024));
            ("wait", JInt 20)]); reflexivity.
Defined.

Lemma record_body_failure (str_other : json -> string)
    (self : AIcrowdEvaluator) (items : dict json) (n : nat) (p : string)
    (e : exn) :
  In p (keys items) ->
  records_unique items = true ->
  record_body str_other self items n p = Raise e ->
  (exists args, e = Exception args) \/ e = TypeError \/ e = OverflowError.
Proof.
  intros Hin Hru H.
  apply lookup_In in Hin as (scores & Hs).
  unfold record_body in H.
  apply bind_raise_inv in H as [H|(u0 & _ & H)].
  { destruct (negb (mem p (keys (gt self)))); [|discriminate].
    rewrite raise_unknown_profile in H. injection H as <-. left; eauto. }
  rewrite (proj2 (dict_get_ok items p scores) Hs) in H. cbn [bind] in H.
  destruct (py_len scores) as [len|e0] eqn:Hlen; cbn [bind] in H.
  2:{ injection H as <-. right; left.
      destruct scores; cbn [py_len] in Hlen; try discriminate;
        now injection Hlen as <-. }
  apply bind_raise_inv in H as [H|(u1 & Hg & H)].
  { destruct (negb (Nat.eqb len 4)); [|discriminate].
    rewrite raise_field_count in H. injection H as <-. left; eauto. }
  destruct (Nat.eqb_spec len 4) as [->|Hne];
    [|cbn [negb] in Hg; now apply raise_exception_not_ok in Hg].
  destruct scores as [| | | |s|l|d];
    try (cbn [py_len] in Hlen; discriminate).
  - (* a str *)
    cbn [py_iter bind] in H.
    apply bind_raise_inv in H as [H|([] & _ & H)].
    { apply check_score_names_raise in H as (x & _ & _ & ->). left; eauto. }
    rewrite validate_field_eq in H. cbn [py_getitem bind] in H.
    injection H as <-. now (right; left).
  - (* a list *)
    cbn [py_iter bind] in H.
    apply bind_raise_inv in H as [H|([] & _ & H)].
    { apply check_score_names_raise in H as (x & _ & _ & ->). left; eauto. }
    rewrite validate_field_eq in H. cbn [py_getitem bind] in H.
    injection H as <-. now (right; left).
  - (* an object *)
    cbn [py_len] in Hlen. injection Hlen as Hlen.
    cbn [py_iter bind] in H.
    apply bind_raise_inv in H as [H|([] & Hcheck & H)].
    { apply check_score_names_raise in H as (x & _ & _ & ->). left; eauto. }
    apply check_score_names_ok in Hcheck. rewrite names_of_dict in Hcheck.
    assert (Hu : unique_keys d = true).
    { unfold records_unique in Hru. rewrite forallb_forall in Hru.
      exact (Hru _ (lookup_value _ _ _ Hs)). }
    assert (Hv : forall code, In code REQUIRED_SITUATION_CODES ->
               exists v, dict_get d code = Ok v).
    { intros code Hc.
      destruct (four_codes_present d Hu Hlen Hcheck code Hc) as (v & Hv).
      exists v. now apply dict_get_ok. }
    destruct (Hv "acc") as (va & Ha); [simpl; tauto|].
    destruct (Hv "it") as (vi & Hi); [simpl; tauto|].
    destruct (Hv "bank") as (vb & Hb'); [simpl; tauto|].
    destruct (Hv "wait") as (vw & Hw); [simpl; tauto|].
    rewrite !validate_field_eq in H. cbn [py_getitem] in H.
    rewrite Ha, Hi, Hb', Hw in H.
    destruct (is_number va) eqn:Na; cbn [bind] in H;
      [|injection H as <-; left; eauto].
    destruct (is_number vi) eqn:Ni; cbn [bind] in H;
      [|injection H as <-; left; eauto].
    destruct (is_number vb) eqn:Nb; cbn [bind] in H;
      [|injection H as <-; left; eauto].
    destruct (is_number vw) eqn:Nw; cbn [bind] in H;
      [|injection H as <-; left; eauto].
    unfold float_record, float_field in H. cbn [py_getitem] in H.
    rewrite Ha, Hi, Hb', Hw in H. cbn [bind] in H.
    destruct (py_float_number va Na) as [(fa & Fa & _)|[Fa _]];
      rewrite Fa in H; cbn [bind] in H;
      [|injection H as <-; now (right; right)].
    destruct (py_float_number vi Ni) as [(fi & Fi & _)|[Fi _]];
      rewrite Fi in H; cbn [bind] in H;
      [|injection H as <-; now (right; right)].
    destruct (py_float_number vb Nb) as [(fb & Fb & _)|[Fb _]];
      rewrite Fb in H; cbn [bind] in H;
      [|injection H as <-; now (right; right)].
    destruct (py_float_number vw Nw) as [(fw & Fw & _)|[Fw _]];
      rewrite Fw in H; cbn [bind] in H;
      [discriminate | injection H as <-; now (right; right)].
Qed.

(** X8: on a submission mapping parsed by [json.load] (unique keys in the
    mapping and in the records that are objects) [load_predictions] never
    fails for a missing key: a failure is a rejection raised by the
    evaluator itself, a [TypeError] (a record that is no object) or an
    [OverflowError] (an int too large for a float). *)
Theorem load_predictions_failure_classes
    (str_other : json -> string) (self : AIcrowdEvaluator) (items : dict json)
    (e : exn) :
  records_unique items = true ->
  load_predictions_parsed str_other self (JDict items) = Raise e ->
  (exists args, e = Exception args) \/ e = TypeError \/ e = OverflowError.
Proof.
  intros Hru H. unfold load_predictions_parsed in H.
  destruct (negb (Nat.eqb (List.length (keys items))
                          (List.length (keys (gt self))))).
  - injection H as <-. left. eauto.
  - apply load_loop_raise in H as (pre & p & post & Hk & H).
    apply (record_body_failure str_other self items
             (S (0 + List.length pre)) p e); try assumption.
    rewrite Hk. apply in_or_app. right. now left.
Qed.

Lemma load_predictions_failure_classes_witness :
  (exists args, TypeError = Exception args)
  \/ TypeError = TypeError \/ TypeError = OverflowError.
Proof.
  apply (load_predictions_failure_classes no_str sample_self
           sample_array_record TypeError); reflexivity.
Defined.

(** ** Scoring does not validate *)

Lemma build_lists_needs_profiles (self : AIcrowdEvaluator)
    (predictions : dict json) (sit : string) (users : list string)
    (gl pl : list json) (r : list json * list json) :
  build_lists self predictions sit users gl pl = Ok r ->
  forall u, In u users -> lookup predictions u <> None.
Proof.
  revert gl pl. induction users as [|u0 users IH]; intros gl pl H u Hu; [easy|].
  cbn [build_lists] in H.
  apply bind_ok_inv in H as (g & _ & H).
  apply bind_ok_inv in H as (q & Hq & H).
  destruct Hu as [<-|Hu]; [|exact (IH _ _ H u Hu)].
  apply bind_ok_inv in Hq as (record & Hrec & _).
  apply dict_get_ok in Hrec. congruence.
Qed.

(** X10: [compute_primary_score] does no validation of its own.  When the
    predictions mapping lacks a profile of the ground truth, the call
    raises an exception instead of returning a score. *)
Theorem primary_score_needs_every_profile
    (pearsonr : list json -> list json -> result float)
    (self : AIcrowdEvaluator) (situations : list string)
    (predictions : dict json) (u : string) :
  situations <> [] ->
  In u (keys (gt self)) ->
  lookup predictions u = None ->
  is_ok (compute_primary_score pearsonr self situations predictions) = false.
Proof.
  intros Hs Hu Hmiss.
  destruct (compute_primary_score pearsonr self situations predictions)
    as [score|e]
    eqn:H; [|reflexivity].
  exfalso. unfold compute_primary_score in H.
  apply bind_ok_inv in H as (total & H & _).
  destruct situations as [|sit rest]; [contradiction|].
  cbn [sum_correlations] in H.
  apply bind_ok_inv in H as (lists & Hb & _).
  exact (build_lists_needs_profiles _ _ _ _ _ _ _ Hb u Hu Hmiss).
Qed.

Lemma primary_score_needs_every_profile_witness :
  is_ok (compute_primary_score pearson_reference sample_self situation_set
           sample_partial_predictions) = false.
Proof.
  apply (primary_score_needs_every_profile pearson_reference sample_self
           situation_set sample_partial_predictions "u2").
  - discriminate.
  - simpl. tauto.
  - reflexivity.
Defined.

(** ** The whole evaluation *)

(** X11: end to end.  When the payload names a file that parses to an
    acceptable submission for a ground truth that follows its schema,
    [_evaluate] scores the coerced records of the submission against the
    ground truth: it returns the result object with the two keys [score]
    (the four coefficients of [pearsonr], summed in the iteration order of
    the set and divided by 4) and [score_secondary] (0.0), or it raises the
    exception that [pearsonr] raises. *)
Theorem evaluate_returns_scores
    (str_other : json -> string)
    (pearsonr : list json -> list json -> result float)
    (self : AIcrowdEvaluator) (fs : file_system)
    (situations : list string) (client_payload : dict string)
    (context : dict json) (path : string) (items : dict json) :
  lookup client_payload "submission_file_path" = Some path ->
  fs path = inr (JDict items) ->
  gt_schema (gt self) = true ->
  unique_keys items = true ->
  acceptable (gt self) (JDict items) = true ->
  Permutation situations situation_set ->
  returned (_evaluate str_other pearsonr self fs situations client_payload
              context) =
  (score <- spec_primary_score pearsonr self
              (map (fun kv => (fst kv, coerced items (fst kv))) items)
              situations ;;
   Ok [("score", score); ("score_secondary", zero)]).
Proof.
  intros Hpath Hfs Hg Hu Hacc Hperm.
  apply (load_accept_iff str_other self (JDict items)) in Hacc.
  destruct (load_predictions_parsed str_other self (JDict items))
    as [predictions|] eqn:Hload; [|discriminate].
  rewrite <- (load_predictions_shape str_other self items predictions Hu Hload).
  unfold _evaluate. cbn [returned].
  rewrite (proj2 (dict_get_ok client_payload _ path) Hpath). cbn [bind].
  unfold load_predictions. rewrite Hfs, Hload. cbn [bind].
  rewrite (compute_primary_score_closed pearsonr str_other self items
             predictions situations Hg Hu Hload Hperm).
  reflexivity.
Qed.

Lemma evaluate_returns_scores_witness :
  returned (_evaluate no_str pearson_reference sample_self sample_fs
              situation_set sample_payload []) =
  (score <- spec_primary_score pearson_reference sample_self
              (map (fun kv => (fst kv, coerced sample_gt (fst kv))) sample_gt)
              situation_set ;;
   Ok [("score", score); ("score_secondary", zero)]).
Proof.
  apply (evaluate_returns_scores no_str pearson_reference sample_self
           sample_fs situation_set sample_payload []
           "my prediction file.json" sample_gt);
    reflexivity.
Defined.
